(** * A shallow embedding of the PR issue checker action
    (.github/actions/pr-checker: pr-checker.js and comment-handler.js).

    Characters are modelled as 8-bit code units (Stdlib [ascii]); JS
    strings are [string], except the strings [JSON.parse] builds with a
    [\uXXXX] escape above 0xFF, which are kept as UTF-16 code units.  Every regular expression of the source is
    modelled by a hand-written matcher that follows the backtracking
    semantics of that particular pattern; the comment above each matcher
    explains why the chosen deterministic procedure gives the same first
    match as the JS engine. *)

From Stdlib Require Import String Ascii List ZArith Lia Bool Permutation.
Import ListNotations.
Open Scope string_scope.
Open Scope nat_scope.
Set Warnings "-register-all".

(* ================================================================= *)
(** ** Characters and string primitives *)

Definition code (c : ascii) : nat := nat_of_ascii c.

(** The double quote, code 34. *)
Definition dq : ascii := ascii_of_nat 34.

(** JS [\s] restricted to code units 0..255: TAB, LF, VT, FF, CR, SP, NBSP. *)
Definition is_ws (c : ascii) : bool :=
  let n := code c in
  ((9 <=? n) && (n <=? 13)) || (n =? 32) || (n =? 160).

(** [\d] and [0-9]. *)
Definition is_digit (c : ascii) : bool :=
  let n := code c in (48 <=? n) && (n <=? 57).

(** [\w] = [A-Za-z0-9_]. *)
Definition is_word (c : ascii) : bool :=
  let n := code c in
  is_digit c || ((65 <=? n) && (n <=? 90)) || ((97 <=? n) && (n <=? 122))
  || (n =? 95).

(** Case mappings.  Only A-Z / a-z are changed: every needle and pattern
    of the source is ASCII, and the case-insensitive regex matching of JS
    (non-unicode mode) never maps a code unit >= 128 onto an ASCII one. *)
Definition lower_char (c : ascii) : ascii :=
  let n := code c in
  if (65 <=? n) && (n <=? 90) then ascii_of_nat (n + 32) else c.

Definition upper_char (c : ascii) : ascii :=
  let n := code c in
  if (97 <=? n) && (n <=? 122) then ascii_of_nat (n - 32) else c.

Fixpoint map_string (f : ascii -> ascii) (s : string) : string :=
  match s with
  | EmptyString => EmptyString
  | String c r => String (f c) (map_string f r)
  end.

(** [String.prototype.toLowerCase] / [toUpperCase]. *)
Definition toLowerCase := map_string lower_char.
Definition toUpperCase := map_string upper_char.

(** [p] is a prefix of [s] (exact). *)
Fixpoint starts_with (p s : string) : bool :=
  match p, s with
  | EmptyString, _ => true
  | String a p', String b s' => Ascii.eqb a b && starts_with p' s'
  | _, _ => false
  end.

(** [p] is a prefix of [s] under the [/i] flag (compare lower-cased). *)
Fixpoint starts_with_ci (p s : string) : bool :=
  match p, s with
  | EmptyString, _ => true
  | String a p', String b s' =>
      Ascii.eqb (lower_char a) (lower_char b) && starts_with_ci p' s'
  | _, _ => false
  end.

(** [s.includes(p)]. *)
Fixpoint includes (s p : string) : bool :=
  starts_with p s ||
  match s with
  | EmptyString => false
  | String _ s' => includes s' p
  end.

(** [s.endsWith(p)]. *)
Definition endsWith (s p : string) : bool :=
  let n := String.length s in
  let m := String.length p in
  (m <=? n) && String.eqb (substring (n - m) m s) p.

(** [s.substring(0, k)]. *)
Definition prefix_upto (k : nat) (s : string) : string := substring 0 k s.

Fixpoint drop_while (f : ascii -> bool) (s : string) : string :=
  match s with
  | String c r => if f c then drop_while f r else s
  | EmptyString => EmptyString
  end.

Fixpoint take_while (f : ascii -> bool) (s : string) : string * string :=
  match s with
  | String c r =>
      if f c then let '(a, b) := take_while f r in (String c a, b)
      else (EmptyString, s)
  | EmptyString => (EmptyString, EmptyString)
  end.

Fixpoint rev_string (s : string) : string :=
  match s with
  | EmptyString => EmptyString
  | String c r => rev_string r ++ String c EmptyString
  end.

(** [s.trim()]: strips JS white space and line terminators at both ends. *)
Definition trim (s : string) : string :=
  rev_string (drop_while is_ws (rev_string (drop_while is_ws s))).

(** The value of a string of decimal digits ([parseInt] of a [\d+]
    capture; numbers are exact naturals here). *)
Definition digits_value (d : string) : nat :=
  fold_left (fun acc c => acc * 10 + (code c - 48)) (list_ascii_of_string d) 0.

(** Decimal rendering of a natural number, for the templated strings. *)
Fixpoint nat_to_string_aux (fuel n : nat) (acc : string) : string :=
  match fuel with
  | O => acc
  | S f =>
      let acc' := String (ascii_of_nat (48 + n mod 10)) acc in
      if n <? 10 then acc' else nat_to_string_aux f (n / 10) acc'
  end.

Definition nat_to_string (n : nat) : string := nat_to_string_aux (S n) n "".

(* ================================================================= *)
(** ** JS values and exceptions *)

(** UTF-16 code units, for the strings that [JSON.parse] may build with
    a [\uXXXX] escape above 0xFF. *)
Definition units_of (s : string) : list N := map N_of_ascii (list_ascii_of_string s).

Definition string_of_units (us : list N) : string :=
  string_of_list_ascii (map ascii_of_N us).

(** JS numbers that arise here: [m * 10^e] (decoded JSON numbers and
    integers produced by the code), standing for the double nearest to
    that value.  A JS string is [JStr] when all its
    code units fit the 8-bit character model, else [JWStr] with its
    code units (one at least above 0xFF).  Object keys are kept as
    their code units. *)
Inductive jvalue : Type :=
| JNull
| JBool (b : bool)
| JNum (m : Z) (e : Z)
| JStr (s : string)
| JWStr (us : list N)
| JArr (xs : list jvalue)
| JObj (kvs : list (list N * jvalue)).

Definition JInt (n : nat) : jvalue := JNum (Z.of_nat n) 0.

(** [m * 10^e] is 0 as a double: [m = 0], or the value is at most
    2^-1075 (half the least subnormal), which rounds to 0. *)
Definition num_zero (m e : Z) : bool :=
  Z.eqb m 0
  || (Z.ltb e 0 && Z.leb (Z.abs m * 2 ^ 1075) (10 ^ (- e)))%Z.

(** JS truthiness; [undefined] (an absent property) is handled by the
    callers through [option]. *)
Definition truthy (v : jvalue) : bool :=
  match v with
  | JNull => false
  | JBool b => b
  | JNum m e => negb (num_zero m e)
  | JStr s => negb (String.eqb s "")
  | JWStr us => match us with [] => false | _ => true end
  | JArr _ | JObj _ => true
  end.

(** Property read [o.k] on a decoded object: the last binding wins, as
    [JSON.parse] overwrites duplicate keys. *)
Definition get_prop (kvs : list (list N * jvalue)) (k : string) : option jvalue :=
  fold_left (fun acc kv => if list_eq_dec N.eq_dec (fst kv) (units_of k)
                           then Some (snd kv) else acc)
    kvs None.

(** [a || b] where [a] may be [undefined]. *)
Definition js_or (a : option jvalue) (b : jvalue) : jvalue :=
  match a with
  | Some v => if truthy v then v else b
  | None => b
  end.

(** Results of JS code that may throw. *)
Inductive res (A : Type) : Type :=
| Ok (a : A)
| Exn (msg : string).
Arguments Ok {A} a.
Arguments Exn {A} msg.

Definition bind {A B} (m : res A) (k : A -> res B) : res B :=
  match m with Ok a => k a | Exn e => Exn e end.

(* ================================================================= *)
(** ** [JSON.parse] (the builtin decoder), over 8-bit code units *)

Module Json.

(** JSON white space: SP, TAB, LF, CR. *)
Definition jws (c : ascii) : bool :=
  let n := code c in (n =? 32) || (n =? 9) || (n =? 10) || (n =? 13).

Definition skip (s : string) : string := drop_while jws s.

Definition hex_val (c : ascii) : option nat :=
  let n := code c in
  if (48 <=? n) && (n <=? 57) then Some (n - 48)
  else if (65 <=? n) && (n <=? 70) then Some (n - 55)
  else if (97 <=? n) && (n <=? 102) then Some (n - 87)
  else None.

(** The body of a string literal after its opening quote, as its UTF-16
    code units, and the text after the closing quote. *)
Fixpoint str_body (s : string) : option (list N * string) :=
  match s with
  | EmptyString => None
  | String c r =>
      let cons_unit u o := match o with
                           | Some (b, t) => Some (u :: b, t) | None => None end in
      if Ascii.eqb c dq then Some ([], r)
      else if code c <? 32 then None
      else if Ascii.eqb c "\" then
        match r with
        | String e r' =>
            let esc k := cons_unit (N_of_ascii k) (str_body r') in
            if Ascii.eqb e dq then esc dq
            else if Ascii.eqb e "\" then esc "\"%char
            else if Ascii.eqb e "/" then esc "/"%char
            else if Ascii.eqb e "b" then esc (ascii_of_nat 8)
            else if Ascii.eqb e "f" then esc (ascii_of_nat 12)
            else if Ascii.eqb e "n" then esc (ascii_of_nat 10)
            else if Ascii.eqb e "r" then esc (ascii_of_nat 13)
            else if Ascii.eqb e "t" then esc (ascii_of_nat 9)
            else if Ascii.eqb e "u" then
              match r' with
              | String h1 (String h2 (String h3 (String h4 t0))) =>
                  match hex_val h1, hex_val h2, hex_val h3, hex_val h4 with
                  | Some a, Some b, Some c', Some d =>
                      cons_unit (N.of_nat (((a * 16 + b) * 16 + c') * 16 + d))
                        (str_body t0)
                  | _, _, _, _ => None
                  end
              | _ => None
              end
            else None
        | EmptyString => None
        end
      else cons_unit (N_of_ascii c) (str_body r)
  end.

(** The string value of the code units: [JStr] when they all fit the
    8-bit model. *)
Definition mk_str (us : list N) : jvalue :=
  if forallb (fun u => N.ltb u 256) us then JStr (string_of_units us) else JWStr us.

Definition zdigits (d : string) : Z := Z.of_nat (digits_value d).

(** number = -? (0 | [1-9][0-9]* ) (. [0-9]+)? ([eE] [+-]? [0-9]+)? *)
Definition number (s : string) : option (jvalue * string) :=
  let '(neg, s1) := match s with
                    | String "-" r => (true, r)
                    | _ => (false, s)
                    end in
  let int_part :=
    match s1 with
    | String "0" r => Some ("0", r)
    | String c _ => if is_digit c then Some (take_while is_digit s1) else None
    | EmptyString => None
    end in
  match int_part with
  | None => None
  | Some (ip, s2) =>
      let frac :=
        match s2 with
        | String "." r =>
            let '(fd, r') := take_while is_digit r in
            if String.eqb fd "" then None else Some (fd, r')
        | _ => Some ("", s2)
        end in
      match frac with
      | None => None
      | Some (fd, s3) =>
          let expo :=
            match s3 with
            | String e r =>
                if Ascii.eqb e "e" || Ascii.eqb e "E" then
                  let '(sg, r1) := match r with
                                   | String "+" t => (1%Z, t)
                                   | String "-" t => ((-1)%Z, t)
                                   | _ => (1%Z, r)
                                   end in
                  let '(ed, r2) := take_while is_digit r1 in
                  if String.eqb ed "" then None else Some ((sg * zdigits ed)%Z, r2)
                else Some (0%Z, s3)
            | EmptyString => Some (0%Z, s3)
            end in
          match expo with
          | None => None
          | Some (ex, s4) =>
              let m := zdigits (ip ++ fd) in
              Some (JNum (if neg then Z.opp m else m)
                         (ex - Z.of_nat (String.length fd))%Z, s4)
          end
      end
  end.

(** Recursive descent; [fuel] bounds the nesting and is given the length
    of the text, which every call consumes at least one character of. *)
Fixpoint value (fuel : nat) (s : string) : option (jvalue * string) :=
  match fuel with
  | O => None
  | S f =>
      let s := skip s in
      match s with
      | EmptyString => None
      | String c r =>
          if Ascii.eqb c "{" then
            match skip r with
            | String d r' => if Ascii.eqb d "}" then Some (JObj [], r')
                             else members f r []
            | EmptyString => None
            end
          else if Ascii.eqb c "[" then
            match skip r with
            | String d r' => if Ascii.eqb d "]" then Some (JArr [], r')
                             else elements f r []
            | EmptyString => None
            end
          else if Ascii.eqb c dq then
            match str_body r with
            | Some (b, t) => Some (mk_str b, t)
            | None => None
            end
          else if starts_with "true" s then Some (JBool true, substring 4 (String.length s - 4) s)
          else if starts_with "false" s then Some (JBool false, substring 5 (String.length s - 5) s)
          else if starts_with "null" s then Some (JNull, substring 4 (String.length s - 4) s)
          else number s
      end
  end
with members (fuel : nat) (s : string) (acc : list (list N * jvalue))
  : option (jvalue * string) :=
  match fuel with
  | O => None
  | S f =>
      match skip s with
      | String c r =>
          if Ascii.eqb c dq then
            match str_body r with
            | Some (k, r1) =>
                match skip r1 with
                | String d r2 =>
                    if Ascii.eqb d ":" then
                      match value f r2 with
                      | Some (v, r3) =>
                          match skip r3 with
                          | String g r4 =>
                              if Ascii.eqb g "," then members f r4 (acc ++ [(k, v)])
                              else if Ascii.eqb g "}" then Some (JObj (acc ++ [(k, v)]), r4)
                              else None
                          | EmptyString => None
                          end
                      | None => None
                      end
                    else None
                | EmptyString => None
                end
            | None => None
            end
          else None
      | EmptyString => None
      end
  end
with elements (fuel : nat) (s : string) (acc : list jvalue)
  : option (jvalue * string) :=
  match fuel with
  | O => None
  | S f =>
      match value f s with
      | Some (v, r) =>
          match skip r with
          | String g r' =>
              if Ascii.eqb g "," then elements f r' (acc ++ [v])
              else if Ascii.eqb g "]" then Some (JArr (acc ++ [v]), r')
              else None
          | EmptyString => None
          end
      | None => None
      end
  end.

End Json.

(** [JSON.parse(text)]: a whole value surrounded by white space, else a
    thrown [SyntaxError]. *)
Definition JSON_parse (text : string) : res jvalue :=
  match Json.value (S (String.length text)) text with
  | Some (v, rest) =>
      if String.eqb (Json.skip rest) "" then Ok v else Exn "SyntaxError"
  | None => Exn "SyntaxError"
  end.

(* ================================================================= *)
(** ** The regular expressions of the source *)

(** [s.substring(n)]. *)
Fixpoint drop_n (n : nat) (s : string) : string :=
  match n, s with
  | O, _ => s
  | S n', String _ r => drop_n n' r
  | S _, EmptyString => EmptyString
  end.

(** Non-global [text.match(re)]: the first position of [text] (the
    empty suffix included) at which the matcher [m] succeeds. *)
Fixpoint search_first {X} (m : string -> option X) (s : string) : option X :=
  match m s with
  | Some x => Some x
  | None => match s with
            | EmptyString => None
            | String _ r => search_first m r
            end
  end.

(** [while ((match = re.exec(text)) !== null)] for a global [re] whose
    matches are never empty: [m] returns the capture and the text after
    the match, where the next search starts ([lastIndex]).  Every match
    consumes a character, so [length text + 1] rounds suffice. *)
Fixpoint scan_aux {X} (fuel : nat) (m : string -> option (X * string))
  (s : string) : list X :=
  match fuel with
  | O => []
  | S f =>
      match m s with
      | Some (x, rest) => x :: scan_aux f m rest
      | None => match s with
                | EmptyString => []
                | String _ r => scan_aux f m r
                end
      end
  end.

Definition scan {X} (m : string -> option (X * string)) (s : string) : list X :=
  scan_aux (S (String.length s)) m s.

Fixpoint first_some {A X} (f : A -> option X) (l : list A) : option X :=
  match l with
  | [] => None
  | a :: l' => match f a with Some x => Some x | None => first_some f l' end
  end.

(** [(\d+)] at the start of [s], greedy. *)
Definition digits1 (s : string) : option (nat * string) :=
  let '(d, rest) := take_while is_digit s in
  if String.eqb d "" then None else Some (digits_value d, rest).

(** [\s+] at the start of [s].  Greedy; giving characters back never
    helps the patterns below, which need a non-space next. *)
Definition ws1 (s : string) : option string :=
  let '(w, rest) := take_while is_ws s in
  if String.eqb w "" then None else Some rest.

(** Pattern [/#(\d+)/g] at the start of [s]. *)
Definition pat_hash (s : string) : option (nat * string) :=
  match s with
  | String "#" r => digits1 r
  | _ => None
  end.

(** [(?:fix(?:es)?|close(?:s)?|resolve(?:s)?)] under [/i], in the order
    the backtracking engine tries the alternatives (greedy [?] first). *)
Definition verbs : list string :=
  ["fixes"; "fix"; "closes"; "close"; "resolves"; "resolve"].

Definition pat_verb (tail : string -> option (nat * string)) (s : string)
  : option (nat * string) :=
  first_some (fun v => if starts_with_ci v s
                       then tail (drop_n (String.length v) s) else None) verbs.

(** [/(?:fix(?:es)?|close(?:s)?|resolve(?:s)?)\s+#(\d+)/gi] *)
Definition pat_verb_hash : string -> option (nat * string) :=
  pat_verb (fun s => match ws1 s with Some r => pat_hash r | None => None end).

(** [/(?:fix(?:es)?|close(?:s)?|resolve(?:s)?)\s+(\d+)/gi] *)
Definition pat_verb_num : string -> option (nat * string) :=
  pat_verb (fun s => match ws1 s with Some r => digits1 r | None => None end).

Definition patterns : list (string -> option (nat * string)) :=
  [pat_hash; pat_verb_hash; pat_verb_num].

(** [Set.prototype.add] on a set kept in insertion order. *)
Definition set_add (l : list nat) (n : nat) : list nat :=
  if existsb (Nat.eqb n) l then l else l ++ [n].

(* ================================================================= *)
(** ** Data model *)

Record pr_data := {
  pr_title : string;
  pr_body : option string;          (* [null] when the PR has no body *)
  pr_number : nat;
  pr_user : string;                 (* [prData.user.login] *)
  pr_additions : nat;
  pr_deletions : nat;
  pr_changed_files : nat
}.

(** An issue as the REST API returns it (only the fields read). *)
Record raw_issue := {
  ri_number : nat;
  ri_title : string;
  ri_body : option string;
  ri_labels : list string;          (* the labels' [name]s *)
  ri_state : string;
  ri_assignee : option string       (* [assignee?.login] *)
}.

(** An issue as [fetchIssues] stores it. *)
Record issue := {
  number : nat;
  title : string;
  body : string;
  labels : list string;
  state : string;
  assignee : option string
}.

Record file_change := {
  filename : string;
  status : string;
  additions : nat;
  deletions : nat;
  changes : nat;
  patch : option string
}.

(** The analysis object of [parseClaudeResponse] / [performBasicAnalysis].
    Scores and narratives are JS values ([JNull] for [null]);
    [raw_response] and [risk_factors] are present on one path only. *)
Record analysis := {
  correctness_score : jvalue;
  completeness_score : jvalue;
  risk_level : jvalue;
  missing_requirements : jvalue;
  implementation_quality : jvalue;
  recommendations : list jvalue;
  analysis_type : string;
  raw_response : option string;
  risk_factors : option (list string)
}.

(* ================================================================= *)
(** ** [PRAnalyzer.extractIssueNumbers] *)

Definition pr_text (pr : pr_data) : string :=
  pr_title pr ++ " " ++ match pr_body pr with Some b => b | None => "" end.

Definition extractIssueNumbers (pr : pr_data) : list nat :=
  let text := pr_text pr in
  fold_left (fun set pattern => fold_left set_add (scan pattern text) set)
    patterns [].

(* ================================================================= *)
(** ** [PRAnalyzer.parseClaudeResponse] and its text helpers *)

(** [response.match(/\{[\s\S]*\}/)]: the leftmost start is the first
    ['{']; the greedy [[\s\S]*] then backs off to the last ['}'] after it.
    When no ['}'] follows the first ['{'], none follows any later one. *)
Fixpoint index_of (c : ascii) (s : string) : option nat :=
  match s with
  | EmptyString => None
  | String d r =>
      if Ascii.eqb c d then Some 0
      else match index_of c r with Some i => Some (S i) | None => None end
  end.

Fixpoint last_index_of (c : ascii) (s : string) : option nat :=
  match s with
  | EmptyString => None
  | String d r =>
      match last_index_of c r with
      | Some i => Some (S i)
      | None => if Ascii.eqb c d then Some 0 else None
      end
  end.

Definition json_match (response : string) : option string :=
  match index_of "{" response with
  | None => None
  | Some i =>
      let t := drop_n i response in
      match last_index_of "}" t with
      | Some j => if 0 <? j then Some (substring 0 (S j) t) else None
      | None => None
      end
  end.

(** [extractScore]: [new RegExp(`${scoreType}[:\\s]*([0-9]+)`, 'i')],
    i.e. the pattern [LABEL], [[:\s]*], then the capture [[0-9]+].  The greedy [[:\s]*] gives
    back only [':'] or spaces, never a digit, so the maximal run is the
    only candidate at a position. *)
Definition colon_or_ws (c : ascii) : bool := Ascii.eqb c ":" || is_ws c.

Definition extractScore (text scoreType : string) : jvalue :=
  match search_first (fun s =>
          if starts_with_ci scoreType s then
            match digits1 (drop_while colon_or_ws
                             (drop_n (String.length scoreType) s)) with
            | Some (n, _) => Some n
            | None => None
            end
          else None) text with
  | Some n => JInt n
  | None => JNull
  end.

(** [(?!\w+:)] after a newline: the lookahead body matches iff the
    maximal word run is non-empty and followed by [':'] (a shorter run is
    followed by a word character). *)
Definition label_ahead (s : string) : bool :=
  let '(w, t) := take_while is_word s in
  negb (String.eqb w "") && starts_with ":" t.

(** The capture: [[^\n]*], then the repeated group [\n(?!\w+:)[^\n]*]
    (greedy [*]): the rest of the line,
    then each following line up to one that starts with a [word:] label. *)
Fixpoint section_body (s : string) : string :=
  match s with
  | EmptyString => EmptyString
  | String c r =>
      if Ascii.eqb c (ascii_of_nat 10) then
        if label_ahead r then EmptyString else String c (section_body r)
      else String c (section_body r)
  end.

(** [extractSection]: [LABEL], [[:\s]*], then the capture, under [/i].  The capture always
    succeeds, so the first occurrence of the label decides. *)
Definition extractSection (text section : string) : jvalue :=
  match search_first (fun s =>
          if starts_with_ci section s then
            Some (section_body (drop_while colon_or_ws
                                  (drop_n (String.length section) s)))
          else None) text with
  | Some m => JStr (trim m)
  | None => JNull
  end.

(** [extractRiskLevel]: the regex LITERAL [/RISK_LEVEL[:\\s]* (LOW|MEDIUM|HIGH)/i]
    (written here with a space after the star).
    In a literal, [\\] is a backslash, so the class is {[':'], ['\'],
    ['s']} (and ['S'] under [/i]); it contains no white space. *)
Definition risk_sep (c : ascii) : bool :=
  Ascii.eqb c ":" || Ascii.eqb c "\" || Ascii.eqb (lower_char c) "s".

Definition extractRiskLevel (text : string) : jvalue :=
  match search_first (fun s =>
          if starts_with_ci "RISK_LEVEL" s then
            let r := drop_while risk_sep (drop_n 10 s) in
            first_some (fun lvl => if starts_with_ci lvl r
                                   then Some (substring 0 (String.length lvl) r)
                                   else None)
              ["LOW"; "MEDIUM"; "HIGH"]
          else None) text with
  | Some m => JStr (toUpperCase m)
  | None => JStr "UNKNOWN"
  end.

(** [parsed.k]: reading a property of [null] throws. *)
Definition read_prop (v : jvalue) (k : string) : res (option jvalue) :=
  match v with
  | JObj kvs => Ok (get_prop kvs k)
  | JNull => Exn "TypeError"
  | _ => Ok None
  end.

Definition from_json (parsed : jvalue) : res analysis :=
  bind (read_prop parsed "correctness_score") (fun cs =>
  bind (read_prop parsed "completeness_score") (fun ps =>
  bind (read_prop parsed "risk_level") (fun rl =>
  bind (read_prop parsed "missing_requirements") (fun mr =>
  bind (read_prop parsed "implementation_quality") (fun iq =>
  bind (read_prop parsed "recommendations") (fun rc =>
  Ok {| correctness_score := js_or cs (JStr "N/A");
        completeness_score := js_or ps (JStr "N/A");
        risk_level := js_or rl (JStr "UNKNOWN");
        missing_requirements := js_or mr (JStr "Unable to determine");
        implementation_quality := js_or iq (JStr "Not assessed");
        recommendations :=
          match rc with
          | Some (JArr xs) => xs
          | _ => [js_or rc (JStr "No specific recommendations")]
          end;
        analysis_type := "AI-Powered";
        raw_response := None;
        risk_factors := None |})))))).

Definition from_text (response : string) : analysis :=
  {| correctness_score := extractScore response "CORRECTNESS_SCORE";
     completeness_score := extractScore response "COMPLETENESS_SCORE";
     risk_level := extractRiskLevel response;
     missing_requirements := extractSection response "MISSING_REQUIREMENTS";
     implementation_quality := extractSection response "IMPLEMENTATION_QUALITY";
     recommendations :=
       [js_or (Some (extractSection response "RECOMMENDATIONS"))
              (JStr "See full analysis for details")];
     analysis_type := "AI-Powered (Parsed)";
     raw_response := Some (prefix_upto 500 response);
     risk_factors := None |}.

(** The [try] block yields [Some] result when it returns, [None] when it
    falls out of the [if]; a throw inside it is caught.  The fallback
    after it runs outside the [try]. *)
Definition parseClaudeResponse (response : string) : res analysis :=
  let attempt : res (option analysis) :=
    match json_match response with
    | Some m => bind (JSON_parse m) (fun parsed =>
                  bind (from_json parsed) (fun a => Ok (Some a)))
    | None => Ok None
    end in
  match attempt with
  | Ok (Some a) => Ok a
  | Ok None | Exn _ => Ok (from_text response)
  end.

(* ================================================================= *)
(** ** [PRAnalyzer.hasMeaningfulChanges] *)

Definition total_changes (fileChanges : list file_change) : nat :=
  fold_left (fun sum file => sum + changes file) fileChanges 0.

Definition skipExtensions : list string :=
  [".md"; ".txt"; ".gitignore"; ".yml"; ".yaml"; ".json"].

Definition isSkippableFile (file : file_change) : bool :=
  existsb (fun ext => endsWith (toLowerCase (filename file)) ext) skipExtensions.

Definition meaningfulFiles (fileChanges : list file_change) : list file_change :=
  filter (fun file => negb (isSkippableFile file) || (5 <? changes file))
    fileChanges.

Definition hasMeaningfulChanges (fileChanges : list file_change) : bool :=
  if Nat.eqb (length fileChanges) 0 then false
  else if Nat.eqb (total_changes fileChanges) 0 then false
  else let mf := meaningfulFiles fileChanges in
       (0 <? length mf) && existsb (fun file => 1 <? changes file) mf.

(* ================================================================= *)
(** ** [PRAnalyzer.performBasicAnalysis] *)

Definition name_has (needles : list string) (file : file_change) : bool :=
  existsb (fun n => includes (filename file) n) needles.

Definition hasTests (fileChanges : list file_change) : bool :=
  existsb (name_has ["test"; "spec"; "__tests__"; ".test."; ".spec."]) fileChanges.

Definition hasDocumentation (fileChanges : list file_change) : bool :=
  existsb (name_has ["README"; ".md"; "docs/"; "documentation"]) fileChanges.

Definition coreFiles (fileChanges : list file_change) : bool :=
  existsb (name_has ["config"; "package.json"; "requirements.txt";
                     "Dockerfile"; ".env"]) fileChanges.

(** The [riskFactors] array, pushed in source order. *)
Definition riskFactors (fileChanges : list file_change) : list string :=
  (if 500 <? total_changes fileChanges then ["Large number of changes"] else [])
  ++ (if 20 <? length fileChanges then ["Many files modified"] else [])
  ++ (if negb (hasTests fileChanges) then ["No test files modified"] else [])
  ++ (if coreFiles fileChanges then ["Core configuration files modified"] else []).

Definition risk_of (n : nat) : string :=
  if 2 <? n then "HIGH" else if 0 <? n then "MEDIUM" else "LOW".

Definition keywords : list string :=
  ["fix"; "add"; "update"; "implement"; "create"; "remove"].

Definition issueText (issues : list issue) : string :=
  toLowerCase (String.concat " " (map (fun i => title i ++ " " ++ body i) issues)).

Definition keywordMatches (pr : pr_data) (issues : list issue) : nat :=
  let it := issueText issues in
  let pt := toLowerCase (pr_text pr) in
  length (filter (fun k => includes it k && includes pt k) keywords).

(** [Math.min(10, Math.max(lo, x))]. *)
Definition clamp (lo x : nat) : nat := Nat.min 10 (Nat.max lo x).

Definition b2n (b : bool) (n : nat) : nat := if b then n else 0.

(** Scores, missing requirements, implementation quality: the three
    branches of the source. *)
Definition basic_scores (pr : pr_data) (issues : list issue)
  (fileChanges : list file_change) : nat * nat * string * string :=
  let totalChanges := total_changes fileChanges in
  let fileCount := length fileChanges in
  let tests := hasTests fileChanges in
  let docs := hasDocumentation fileChanges in
  let rf := riskFactors fileChanges in
  if 0 <? length issues then
    let cs := clamp 1 (keywordMatches pr issues * 2 + b2n tests 2) in
    let ps := clamp 1 ((if length issues <=? 2 then 8 else 6)
                       + b2n docs 1 + b2n tests 1) in
    (cs, ps,
     (if 0 <? length rf then "Potential concerns identified through heuristic analysis"
      else "None identified with basic analysis"),
     "Basic analysis with " ++ nat_to_string (length issues) ++ " linked issues: "
       ++ nat_to_string fileCount ++ " files changed, "
       ++ nat_to_string totalChanges ++ " total changes. "
       ++ (if tests then "Tests included." else "No tests detected.") ++ " "
       ++ (if docs then "Documentation updated." else ""))
  else
    let prDescription := match pr_body pr with Some b => b | None => "" end in
    let prTitle := pr_title pr in
    if String.eqb (trim prDescription) "" && String.eqb (trim prTitle) "" then
      (3, 3, "No PR description provided to compare against code changes",
       "Cannot assess implementation quality without clear description of intended changes")
    else
      let hasDescription := 50 <? String.length prDescription in
      let titleQuality := (10 <? String.length prTitle)
                          && (String.length prTitle <? 100) in
      (* [Math.floor(Math.min(10, totalChanges / 10) / 2)] on a
         non-negative integer is [min 5 (totalChanges / 20)] *)
      let half_ratio := Nat.min 5 (totalChanges / 20) in
      let cs := clamp 2 (b2n hasDescription 4 + b2n (negb hasDescription) 2
                         + b2n titleQuality 2 + half_ratio + b2n tests 2) in
      let ps := clamp 2 (cs - 1 + b2n docs 1) in
      (cs, ps,
       (if negb hasDescription then
          "No detailed PR description provided - cannot verify if all intended changes are implemented"
        else if 0 <? length rf then "Some potential concerns identified"
        else "Analysis limited without linked issues for detailed requirements"),
       "Basic analysis without linked issues: " ++ nat_to_string fileCount
         ++ " files changed, " ++ nat_to_string totalChanges ++ " total changes. "
         ++ (if tests then "Tests included." else "No tests detected.") ++ " "
         ++ (if docs then "Documentation updated." else "") ++ " "
         ++ (if hasDescription then "PR has description."
             else "PR lacks detailed description.")).

Definition basic_recommendations (pr : pr_data) (issues : list issue)
  (fileChanges : list file_change) : list string :=
  let totalChanges := total_changes fileChanges in
  let tests := hasTests fileChanges in
  let docs := hasDocumentation fileChanges in
  let hasIssues := 0 <? length issues in
  let short_body := match pr_body pr with
                    | None => true
                    | Some b => String.eqb b "" || (String.length b <? 50)
                    end in
  map snd (filter fst
    [(negb tests, "Consider adding or updating tests for the changes");
     (negb docs && (100 <? totalChanges),
        "Consider updating documentation for significant changes");
     (300 <? totalChanges, "Consider breaking this into smaller PRs for easier review");
     (2 <? length (riskFactors fileChanges),
        "High risk changes detected - consider additional review");
     (negb hasIssues,
        "Consider linking related issues to provide more context for future reviews");
     (negb hasIssues && short_body,
        "Consider adding a more detailed PR description explaining the purpose and scope of changes")]).

Definition performBasicAnalysis (pr : pr_data) (issues : list issue)
  (fileChanges : list file_change) : analysis :=
  let '(cs, ps, mr, iq) := basic_scores pr issues fileChanges in
  let rf := riskFactors fileChanges in
  {| correctness_score := JInt cs;
     completeness_score := JInt ps;
     risk_level := JStr (risk_of (length rf));
     missing_requirements := JStr mr;
     implementation_quality := JStr iq;
     recommendations := map JStr (basic_recommendations pr issues fileChanges);
     analysis_type := if 0 <? length issues then "Basic Heuristic (with Issues)"
                      else "Basic Heuristic (PR Description Based)";
     raw_response := None;
     risk_factors := Some rf |}.

(* ================================================================= *)
(** ** The run: transport, requests, [analyzePR] *)

(** What a [fetch] call followed by [response.json()] yields: a body, a
    non-success status (with its [statusText]), or a rejection. *)
Inductive fetch_outcome (A : Type) : Type :=
| FOk (a : A)
| FNotOk (statusText : string)
| FThrow (msg : string).
Arguments FOk {A} a.
Arguments FNotOk {A} statusText.
Arguments FThrow {A} msg.

(** A model call.  The prompt ([buildAnalysisPrompt] /
    [buildNoIssuesAnalysisPrompt]) is a function of these arguments. *)
Inductive model_request : Type :=
| PromptWithIssues (pr : pr_data) (issues : list issue) (files : list file_change)
| PromptNoIssues (pr : pr_data) (files : list file_change).

Inductive request : Type :=
| ReqPR
| ReqIssue (n : nat)
| ReqFiles
| ReqModel (r : model_request).

(** The collaborators' answers during one run.  [model_reply] is
    [Some text] when the call succeeds and [result.content[0].text] is a
    string, [None] on any failure inside the [try] of [analyzeWithClaude]. *)
Record env := {
  anthropicApiKey : option string;
  pr_fetch : fetch_outcome pr_data;
  issue_fetch : nat -> fetch_outcome raw_issue;
  files_fetch : fetch_outcome (list file_change);
  model_reply : model_request -> option string
}.

(** Computations against collaborators: read the environment [E] of
    their answers, append the requests [Rq] made, and possibly throw. *)
Definition ST (E Rq A : Type) : Type := E -> list Rq -> res A * list Rq.

Section Monad.
Context {E Rq : Type}.

Definition ret {A} (a : A) : ST E Rq A := fun _ log => (Ok a, log).
Definition throw {A} (msg : string) : ST E Rq A := fun _ log => (Exn msg, log).
Definition mbind {A B} (m : ST E Rq A) (k : A -> ST E Rq B) : ST E Rq B :=
  fun e log => match m e log with
               | (Ok a, log') => k a e log'
               | (Exn x, log') => (Exn x, log')
               end.
Definition send (r : Rq) : ST E Rq unit := fun _ log => (Ok tt, app log [r]).
Definition ask {A} (f : E -> A) : ST E Rq A := fun e log => (Ok (f e), log).
Definition try_catch {A} (m : ST E Rq A) (h : string -> ST E Rq A) : ST E Rq A :=
  fun e log => match m e log with
               | (Exn x, log') => h x e log'
               | r => r
               end.
End Monad.

Definition M (A : Type) : Type := ST env request A.

Notation "x <- m ;; k" := (mbind m (fun x => k))
  (at level 61, m at next level, right associativity).
Notation "m ;;; k" := (mbind m (fun _ => k)) (at level 61, right associativity).

Definition fetchPRData : M pr_data :=
  send ReqPR ;;;
  o <- ask pr_fetch ;;
  match o with
  | FOk d => ret d
  | FNotOk st => throw ("Failed to fetch PR data: " ++ st)
  | FThrow m => throw m
  end.

Definition to_issue (i : raw_issue) : issue :=
  {| number := ri_number i; title := ri_title i;
     body := match ri_body i with Some b => b | None => "" end;
     labels := ri_labels i; state := ri_state i; assignee := ri_assignee i |}.

(** The loop body of [fetchIssues], inside its own [try]/[catch]. *)
Definition fetch_one (issues : list issue) (n : nat) : M (list issue) :=
  try_catch
    (send (ReqIssue n) ;;;
     o <- ask (fun e => issue_fetch e n) ;;
     match o with
     | FOk i => ret (app issues [to_issue i])
     | FNotOk _ => ret issues
     | FThrow m => throw m
     end)
    (fun _ => ret issues).

Fixpoint fetch_loop (issues : list issue) (ns : list nat) : M (list issue) :=
  match ns with
  | [] => ret issues
  | n :: ns' => is' <- fetch_one issues n ;; fetch_loop is' ns'
  end.

Definition fetchIssues (ns : list nat) : M (list issue) := fetch_loop [] ns.

Definition truncate_patch (f : file_change) : file_change :=
  {| filename := filename f; status := status f; additions := additions f;
     deletions := deletions f; changes := changes f;
     patch := match patch f with Some p => Some (prefix_upto 3000 p) | None => None end |}.

Definition fetchPRFiles : M (list file_change) :=
  send ReqFiles ;;;
  o <- ask files_fetch ;;
  match o with
  | FOk fs => ret (map truncate_patch fs)
  | FNotOk st => throw ("Failed to fetch PR files: " ++ st)
  | FThrow m => throw m
  end.

(** [analyzeWithClaude] / [analyzeWithClaudeNoIssues]: on any failure of
    the call, fall back to the heuristic (with [[]] issues for the latter). *)
Definition analyzeWith (r : model_request) (fallback : analysis) : M analysis :=
  send (ReqModel r) ;;;
  reply <- ask (fun e => model_reply e r) ;;
  match reply with
  | Some text =>
      match parseClaudeResponse text with
      | Ok a => ret a
      | Exn _ => ret fallback
      end
  | None => ret fallback
  end.

Definition analyzeWithClaude (pr : pr_data) (issues : list issue)
  (files : list file_change) : M analysis :=
  analyzeWith (PromptWithIssues pr issues files) (performBasicAnalysis pr issues files).

Definition analyzeWithClaudeNoIssues (pr : pr_data) (files : list file_change)
  : M analysis :=
  analyzeWith (PromptNoIssues pr files) (performBasicAnalysis pr [] files).

(** The [prData] snapshot attached to the result. *)
Record pr_summary := {
  s_title : string; s_number : nat; s_user : string;
  s_additions : nat; s_deletions : nat; s_changedFiles : nat
}.

Definition summarize (pr : pr_data) : pr_summary :=
  {| s_title := pr_title pr; s_number := pr_number pr; s_user := pr_user pr;
     s_additions := pr_additions pr; s_deletions := pr_deletions pr;
     s_changedFiles := pr_changed_files pr |}.

(** [{...analysis, linkedIssues, prData}] *)
Record final_analysis := {
  an : analysis;
  linkedIssues : list nat;
  prData : pr_summary
}.

Record analysis_result := {
  success : bool;
  error : option string;
  result : option final_analysis
}.

Definition no_changes_analysis : analysis :=
  {| correctness_score := JStr "N/A";
     completeness_score := JStr "N/A";
     risk_level := JStr "LOW";
     missing_requirements := JStr "No meaningful code changes detected";
     implementation_quality := JStr "No substantial changes to review";
     recommendations :=
       [JStr "This PR appears to contain minimal or no code changes";
        JStr "Consider adding meaningful changes or closing if this PR was created in error"];
     analysis_type := "No Changes Analysis";
     raw_response := None;
     risk_factors := None |}.

Definition key_set (k : option string) : bool :=
  match k with Some s => negb (String.eqb s "") | None => false end.

Definition analyzePR : M analysis_result :=
  try_catch
    (prData <- fetchPRData ;;
     let issueNumbers := extractIssueNumbers prData in
     issues <- (if 0 <? length issueNumbers then fetchIssues issueNumbers
                else ret []) ;;
     fileChanges <- fetchPRFiles ;;
     let meaningfulChanges := hasMeaningfulChanges fileChanges in
     if negb meaningfulChanges && Nat.eqb (length issueNumbers) 0 then
       ret {| success := true; error := None;
              result := Some {| an := no_changes_analysis;
                                linkedIssues := issueNumbers;
                                prData := summarize prData |} |}
     else
       key <- ask anthropicApiKey ;;
       analysis <- (if key_set key then
                      if Nat.eqb (length issueNumbers) 0
                      then analyzeWithClaudeNoIssues prData fileChanges
                      else analyzeWithClaude prData issues fileChanges
                    else ret (performBasicAnalysis prData issues fileChanges)) ;;
       ret {| success := true; error := None;
              result := Some {| an := analysis;
                                linkedIssues := issueNumbers;
                                prData := summarize prData |} |})
    (fun msg => ret {| success := false; error := Some msg; result := None |}).

Definition run_analyzePR (e : env) : analysis_result * list request :=
  match analyzePR e [] with
  | (Ok r, log) => (r, log)
  | (Exn m, log) => ({| success := false; error := Some m; result := None |}, log)
  end.

(* ================================================================= *)
(** ** [CommentHandler] (comment-handler.js) *)

Module CommentHandler.

(** A comment of [GET /issues/{n}/comments], the fields read.
    [user_type] is [None] when [comment.user] is [null], else
    [Some comment.user.type]. *)
Record gh_comment := {
  id : nat;
  user_type : option string;
  comment_body : string
}.

Inductive comment_request : Type :=
| ListComments
| PatchComment (commentId : nat) (newBody : string)
| PostComment (newBody : string).

(** The PR's comments, oldest first, and the answers of the three
    endpoints: how the listing ends, the [PATCH] of a comment and the
    [POST] of a new one (whose response bodies are not read). *)
Record comment_env := {
  pr_comments : list gh_comment;
  list_resp : fetch_outcome unit;
  patch_resp : nat -> string -> fetch_outcome unit;
  post_resp : string -> fetch_outcome unit
}.

Definition CM (A : Type) : Type := ST comment_env comment_request A.

(** The listing has no [page] or [per_page] parameter: GitHub answers
    with the first page, the 30 oldest comments. *)
Definition per_page : nat := 30.

Definition marker : string := "PR Issue Correctness Analysis".

(** [comment.user.type === 'Bot' && comment.body.includes(marker)];
    reading [type] of a [null] user throws. *)
Definition is_bot_analysis (c : gh_comment) : res bool :=
  match user_type c with
  | Some t => Ok (String.eqb t "Bot" && includes (comment_body c) marker)
  | None => Exn "Cannot read properties of null (reading 'type')"
  end.

(** [Array.prototype.find]: the first element satisfying the predicate;
    a throw of the predicate escapes. *)
Fixpoint find_first {A} (p : A -> res bool) (l : list A) : res (option A) :=
  match l with
  | [] => Ok None
  | x :: l' => bind (p x) (fun b => if b then Ok (Some x) else find_first p l')
  end.

Definition findExistingComment : CM (option gh_comment) :=
  send ListComments ;;;
  o <- ask list_resp ;;
  match o with
  | FOk _ =>
      comments <- ask (fun e => firstn per_page (pr_comments e)) ;;
      match find_first is_bot_analysis comments with
      | Ok found => ret found
      | Exn m => throw m
      end
  | FNotOk st => throw ("Failed to fetch comments: " ++ st)
  | FThrow m => throw m
  end.

Definition updateComment (commentId : nat) (comment : string) : CM bool :=
  send (PatchComment commentId comment) ;;;
  o <- ask (fun e => patch_resp e commentId comment) ;;
  match o with
  | FOk _ => ret true
  | FNotOk st => throw ("Failed to update comment: " ++ st)
  | FThrow m => throw m
  end.

Definition createComment (comment : string) : CM bool :=
  send (PostComment comment) ;;;
  o <- ask (fun e => post_resp e comment) ;;
  match o with
  | FOk _ => ret true
  | FNotOk st => throw ("Failed to create comment: " ++ st)
  | FThrow m => throw m
  end.

Definition postOrUpdateComment (comment : string) (updateExisting : bool) : CM bool :=
  try_catch
    ((if updateExisting then
        existing <- findExistingComment ;;
        match existing with
        | Some c => updateComment (id c) comment
        | None => createComment comment
        end
      else createComment comment))
    (fun _ => ret false).

End CommentHandler.

(* ================================================================= *)
(** ** [main] *)

(** [comment.replace(/\n/g, '\\n').replace(/"/g, '\\"')] *)
Fixpoint escape_output (s : string) : string :=
  match s with
  | EmptyString => EmptyString
  | String c r =>
      if Ascii.eqb c (ascii_of_nat 10) then "\" ++ "n" ++ escape_output r
      else if Ascii.eqb c dq then "\" ++ String dq EmptyString ++ escape_output r
      else String c (escape_output r)
  end.

Section Main.

(** [generateComment(result, prNumber)] reads the wall clock
    ([new Date().toLocaleString()]) and may throw on a non-string
    recommendation ([rec.trim()]); [show] is the JS string conversion of
    a value inside a template literal.  Neither decides the exit status
    on the failure path. *)
Variable generateComment : analysis_result -> res string.
Variable show : jvalue -> string.

(** The [::set-output] lines printed, and the process exit status
    ([process.exit(1)] in the [catch], else 0 once [main] resolves). *)
Definition main (e : env) (ce : CommentHandler.comment_env)
  (shouldComment updateExisting : bool) : list (string * string) * nat :=
  let '(r, _) := run_analyzePR e in
  if negb (success r) then
    ([("success", "false");
      (* the cross mark U+274C, outside the 8-bit character model, is
         written as its UTF-8 bytes; [\\n] in the template is a
         backslash and an [n], as is [\n] in a Rocq string *)
      ("comment", "## " ++ String (ascii_of_nat 226) (String (ascii_of_nat 157)
                   (String (ascii_of_nat 140) EmptyString))
                   ++ " PR Analysis Failed\n\n**Error:** "
                   ++ match error r with Some m => m | None => "null" end);
      ("risk_level", "UNKNOWN");
      ("comment_posted", "false")], 0)
  else
    match result r with
    | None => ([], 1)     (* [result.analysis.correctness_score] throws *)
    | Some fa =>
        match generateComment r with
        | Exn _ => ([], 1)
        | Ok comment =>
            let posted :=
              if shouldComment then
                match fst (CommentHandler.postOrUpdateComment comment updateExisting ce []) with
                | Ok b => b
                | Exn _ => false
                end
              else false in
            ([("success", "true");
              ("comment", escape_output comment);
              ("risk_level", show (risk_level (an fa)));
              ("comment_posted", if posted then "true" else "false")], 0)
        end
    end.

End Main.

(* ================================================================= *)
(** ** The prompts: [buildAnalysisPrompt] and [buildNoIssuesAnalysisPrompt] *)

(** A line feed (the [\n] of a template literal). *)
Definition nl : string := String (ascii_of_nat 10) EmptyString.

(** A double quote, as a string. *)
Definition dqs : string := String dq EmptyString.

(** [${file.patch ? `**Code Changes:**\n```diff\n${file.patch.substring(0, 1500)}\n```` : '**No patch data available**'}];
    an empty patch is falsy. *)
Definition patch_text (p : option string) : string :=
  match p with
  | Some q =>
      if String.eqb q "" then "**No patch data available**"
      else "**Code Changes:**" ++ nl ++ "```diff" ++ nl ++ prefix_upto 1500 q ++ nl ++ "```"
  | None => "**No patch data available**"
  end.

(** One file of [changesText]; [ind] is the indentation the template
    literal has before its second and third lines (none in
    [buildNoIssuesAnalysisPrompt], six spaces in [buildAnalysisPrompt]). *)
Definition file_block (ind : string) (file : file_change) : string :=
  "### File: " ++ filename file ++ " (" ++ status file ++ ")" ++ nl
  ++ ind ++ "**Changes:** +" ++ nat_to_string (additions file) ++ " -"
  ++ nat_to_string (deletions file) ++ nl
  ++ ind ++ patch_text (patch file).

(** [fileChanges.slice(0, 15).map(...).join('\n\n')] *)
Definition changesText (ind : string) (fileChanges : list file_change) : string :=
  String.concat (nl ++ nl) (map (file_block ind) (firstn 15 fileChanges)).

(** [${issue.labels.join(', ') || 'None'}] *)
Definition labels_text (ls : list string) : string :=
  let j := String.concat ", " ls in if String.eqb j "" then "None" else j.

Definition issue_block (i : issue) : string :=
  "### Issue #" ++ nat_to_string (number i) ++ ": " ++ title i ++ nl
  ++ "      **Description:** " ++ prefix_upto 1000 (body i)
  ++ (if 1000 <? String.length (body i) then "..." else "") ++ nl
  ++ "      **Labels:** " ++ labels_text (labels i) ++ nl
  ++ "      **Status:** " ++ state i.

(** [issues.map(...).join('\n\n')] *)
Definition issuesText (issues : list issue) : string :=
  String.concat (nl ++ nl) (map issue_block issues).

(** [${prData.body ? prData.body.substring(0, 2000) : 'No description provided'}] *)
Definition description_text (pr : pr_data) : string :=
  match pr_body pr with
  | Some b => if String.eqb b "" then "No description provided" else prefix_upto 2000 b
  | None => "No description provided"
  end.

(** [prData.body && prData.body.trim()] *)
Definition has_description_text (pr : pr_data) : bool :=
  match pr_body pr with
  | Some b => negb (String.eqb (trim b) "")
  | None => false
  end.

Definition buildNoIssuesAnalysisPrompt (pr : pr_data) (fileChanges : list file_change)
  : string :=
  "Please analyze this pull request based on its description and code changes. Since there are no linked issues, evaluate whether the code changes align with what the PR description claims to accomplish." ++ nl
  ++ "            # PULL REQUEST DETAILS" ++ nl
  ++ "            **Title:** " ++ (pr_title pr) ++ nl
  ++ "            **Description:** " ++ (description_text pr) ++ nl
  ++ "            **Author:** " ++ (pr_user pr) ++ nl
  ++ "            **Changes:** +" ++ (nat_to_string (pr_additions pr)) ++ " -" ++ (nat_to_string (pr_deletions pr)) ++ " lines across " ++ (nat_to_string (pr_changed_files pr)) ++ " files" ++ nl
  ++ nl
  ++ "            # CODE CHANGES" ++ nl
  ++ "            " ++ (changesText "" fileChanges) ++ nl
  ++ nl
  ++ "            # ANALYSIS INSTRUCTIONS" ++ nl
  ++ "            Since no issues are linked to this PR, please analyze whether the code changes match the PR title and description:" ++ nl
  ++ nl
  ++ "            1. **CORRECTNESS_SCORE** (0-10): How well do the code changes align with what the PR title/description claims?" ++ nl
  ++ "            2. **COMPLETENESS_SCORE** (0-10): Do the changes appear to fully implement what's described?" ++ nl
  ++ "            3. **RISK_LEVEL** (LOW/MEDIUM/HIGH): What is the risk level of these changes?" ++ nl
  ++ "            4. **MISSING_REQUIREMENTS**: What aspects mentioned in the PR description appear unaddressed in the code?" ++ nl
  ++ "            5. **IMPLEMENTATION_QUALITY**: Assessment of the code quality and approach" ++ nl
  ++ "            6. **RECOMMENDATIONS**: Specific suggestions for improvement" ++ nl
  ++ nl
  ++ "            " ++ (if has_description_text pr then "Focus on whether the implementation matches the stated goals in the PR description." else "NOTE: This PR has minimal description. Analyze the code changes and infer the intent from the changes themselves. Comment on the lack of clear description.") ++ nl
  ++ nl
  ++ "            Please format your response as JSON with these exact keys:" ++ nl
  ++ "            {" ++ nl
  ++ "              " ++ dqs ++ "correctness_score" ++ dqs ++ ": <number>," ++ nl
  ++ "              " ++ dqs ++ "completeness_score" ++ dqs ++ ": <number>, " ++ nl
  ++ "              " ++ dqs ++ "risk_level" ++ dqs ++ ": " ++ dqs ++ "<LOW|MEDIUM|HIGH>" ++ dqs ++ "," ++ nl
  ++ "              " ++ dqs ++ "missing_requirements" ++ dqs ++ ": " ++ dqs ++ "<detailed analysis or 'None identified'>" ++ dqs ++ "," ++ nl
  ++ "              " ++ dqs ++ "implementation_quality" ++ dqs ++ ": " ++ dqs ++ "<assessment of code quality>" ++ dqs ++ "," ++ nl
  ++ "              " ++ dqs ++ "recommendations" ++ dqs ++ ": [" ++ dqs ++ "<recommendation 1>" ++ dqs ++ ", " ++ dqs ++ "<recommendation 2>" ++ dqs ++ ", " ++ dqs ++ "..." ++ dqs ++ "]" ++ nl
  ++ "            }".

Definition buildAnalysisPrompt (pr : pr_data) (issues : list issue)
  (fileChanges : list file_change) : string :=
  "Please analyze this pull request against its linked issues to determine if the implementation correctly addresses the requirements." ++ nl
  ++ nl
  ++ "      # PULL REQUEST DETAILS" ++ nl
  ++ "      **Title:** " ++ (pr_title pr) ++ nl
  ++ "      **Description:** " ++ (description_text pr) ++ nl
  ++ "      **Author:** " ++ (pr_user pr) ++ nl
  ++ "      **Changes:** +" ++ (nat_to_string (pr_additions pr)) ++ " -" ++ (nat_to_string (pr_deletions pr)) ++ " lines across " ++ (nat_to_string (pr_changed_files pr)) ++ " files" ++ nl
  ++ nl
  ++ "      # LINKED ISSUES" ++ nl
  ++ "      " ++ (issuesText issues) ++ nl
  ++ nl
  ++ "      # CODE CHANGES" ++ nl
  ++ "      " ++ (changesText "      " fileChanges) ++ nl
  ++ nl
  ++ "      # ANALYSIS INSTRUCTIONS" ++ nl
  ++ "      Please provide a thorough analysis addressing:" ++ nl
  ++ nl
  ++ "      1. **CORRECTNESS_SCORE** (0-10): How well does the PR implementation match the issue requirements?" ++ nl
  ++ "      2. **COMPLETENESS_SCORE** (0-10): Are all aspects of the linked issues addressed?" ++ nl
  ++ "      3. **RISK_LEVEL** (LOW/MEDIUM/HIGH): What is the risk level of these changes?" ++ nl
  ++ "      4. **MISSING_REQUIREMENTS**: What specific requirements from the issues appear to be unaddressed?" ++ nl
  ++ "      5. **IMPLEMENTATION_QUALITY**: Comments on code quality, approach, and best practices" ++ nl
  ++ "      6. **RECOMMENDATIONS**: Specific actionable suggestions for improvement" ++ nl
  ++ nl
  ++ "      Please format your response as JSON with these exact keys:" ++ nl
  ++ "      {" ++ nl
  ++ "        " ++ dqs ++ "correctness_score" ++ dqs ++ ": <number>," ++ nl
  ++ "        " ++ dqs ++ "completeness_score" ++ dqs ++ ": <number>, " ++ nl
  ++ "        " ++ dqs ++ "risk_level" ++ dqs ++ ": " ++ dqs ++ "<LOW|MEDIUM|HIGH>" ++ dqs ++ "," ++ nl
  ++ "        " ++ dqs ++ "missing_requirements" ++ dqs ++ ": " ++ dqs ++ "<detailed list or 'None identified'>" ++ dqs ++ "," ++ nl
  ++ "        " ++ dqs ++ "implementation_quality" ++ dqs ++ ": " ++ dqs ++ "<assessment of code quality>" ++ dqs ++ "," ++ nl
  ++ "        " ++ dqs ++ "recommendations" ++ dqs ++ ": [" ++ dqs ++ "<recommendation 1>" ++ dqs ++ ", " ++ dqs ++ "<recommendation 2>" ++ dqs ++ ", " ++ dqs ++ "..." ++ dqs ++ "]" ++ nl
  ++ "      }".

(** The prompt of a model request. *)
Definition prompt_of (r : model_request) : string :=
  match r with
  | PromptWithIssues pr issues files => buildAnalysisPrompt pr issues files
  | PromptNoIssues pr files => buildNoIssuesAnalysisPrompt pr files
  end.

(* ================================================================= *)
(** ** [generateComment] *)

Section Units.
Local Open Scope N_scope.

(** JS white space and line terminators over UTF-16 code units, as
    [String.prototype.trim] strips them. *)
Definition is_ws_unit (u : N) : bool :=
  ((9 <=? u) && (u <=? 13)) || (u =? 32) || (u =? 160) || (u =? 5760)
  || ((8192 <=? u) && (u <=? 8202)) || (u =? 8232) || (u =? 8233)
  || (u =? 8239) || (u =? 8287) || (u =? 12288) || (u =? 65279).

(** The UTF-8 bytes of a code point (above 0xFF here). *)
Definition utf8 (cp : N) : string :=
  let b (n : N) := String (ascii_of_N n) EmptyString in
  if cp <? 2048 then b (192 + cp / 64) ++ b (128 + cp mod 64)
  else if cp <? 65536 then
    b (224 + cp / 4096) ++ b (128 + (cp / 64) mod 64) ++ b (128 + cp mod 64)
  else b (240 + cp / 262144) ++ b (128 + (cp / 4096) mod 64)
       ++ b (128 + (cp / 64) mod 64) ++ b (128 + cp mod 64).

(** A wide string inside the comment: a code unit of the 8-bit model is
    that character; the others are written as UTF-8 bytes, as the emoji
    of the templates are (a surrogate pair as its code point, an unpaired
    surrogate as its own three bytes). *)
Fixpoint render (us : list N) : string :=
  match us with
  | [] => EmptyString
  | u :: r =>
      if u <? 256 then String (ascii_of_N u) (render r)
      else if (55296 <=? u) && (u <? 56320) then
        match r with
        | l :: r' =>
            if (56320 <=? l) && (l <? 57344)
            then utf8 (65536 + (u - 55296) * 1024 + (l - 56320)) ++ render r'
            else utf8 u ++ render r
        | [] => utf8 u
        end
      else utf8 u ++ render r
  end.

End Units.

(** [rec && rec.trim()]: a string is listed unless blank; a falsy value
    is skipped; any other value has no [trim] method and the call throws. *)
Definition rec_line (rec : jvalue) : res string :=
  match rec with
  | JStr s => if String.eqb (trim s) "" then Ok "" else Ok ("- " ++ s ++ nl)
  | JWStr us => if forallb is_ws_unit us then Ok "" else Ok ("- " ++ render us ++ nl)
  | v => if truthy v then Exn "rec.trim is not a function" else Ok ""
  end.

(** [analysis.recommendations.forEach(...)]: the first throw escapes. *)
Fixpoint rec_lines (recs : list jvalue) : res string :=
  match recs with
  | [] => Ok ""
  | r :: rs => bind (rec_line r) (fun a => bind (rec_lines rs) (fun b => Ok (a ++ b)))
  end.

(** [x === 'lit'] for a value of the analysis. *)
Definition strict_eq_str (v : jvalue) (s : string) : bool :=
  match v with JStr t => String.eqb t s | _ => false end.

Section Generate.

(** [show] is the string conversion of a value inside a template
    literal; [now] is [new Date().toLocaleString()]. *)
Variable show : jvalue -> string.
Variable now : string.

Definition generateComment (r : analysis_result) (prNumber : string) : res string :=
  if negb (success r) then
    Ok ("## ❌ PR Analysis Failed" ++ nl ++ nl ++ "**Error:** "
        ++ match error r with Some m => m | None => "null" end ++ nl ++ nl
        ++ "Please check the workflow logs for more details or contact the repository maintainers.")
  else
    match result r with
    | None => Exn "Cannot read properties of null"
    | Some fa =>
        let a := an fa in
        let li := linkedIssues fa in
        let pd := prData fa in
        let no_issues := Nat.eqb (length li) 0 in
        let head :=
          "## 📊 PR Issue Correctness Analysis" ++ nl ++ nl
          ++ "🔗 **PR:** #" ++ prNumber ++ " by @" ++ s_user pd ++ nl
          ++ (if no_issues
              then "📋 **Linked Issues:** None (analyzed PR description vs code changes)" ++ nl
              else "📋 **Linked Issues:** "
                   ++ String.concat ", " (map (fun n => "#" ++ nat_to_string n) li) ++ nl)
          ++ "📅 **Analysis Time:** " ++ now ++ nl
          ++ "🤖 **Analysis Type:** " ++ analysis_type a ++ nl ++ nl
          ++ "### 🎯 Analysis Results" ++ nl
          ++ "- ✅ **Correctness Score:** " ++ show (correctness_score a) ++ "/10" ++ nl
          ++ "- 📋 **Completeness Score:** " ++ show (completeness_score a) ++ "/10" ++ nl
          ++ "- ⚠️ **Risk Level:** " ++ show (risk_level a) ++ nl
          ++ "- 📁 **Files Changed:** " ++ nat_to_string (s_changedFiles pd) ++ nl
          ++ "- 📈 **Lines:** +" ++ nat_to_string (s_additions pd) ++ " -"
          ++ nat_to_string (s_deletions pd) ++ nl ++ nl
          ++ (if strict_eq_str (correctness_score a) "N/A"
                 && strict_eq_str (missing_requirements a) "No meaningful code changes detected"
              then "### ⚠️ No Meaningful Changes Detected" ++ nl
                   ++ "This PR appears to contain minimal or no substantial code changes to analyze. Please verify this is intentional."
                   ++ nl ++ nl
              else "")
          ++ (if no_issues
              then "### 📝 Analysis Method" ++ nl
                   ++ "Since no issues were linked to this PR, the analysis compared the PR title and description against the code changes to assess alignment."
                   ++ nl ++ nl
              else "")
          ++ (if truthy (missing_requirements a)
                 && negb (strict_eq_str (missing_requirements a) "None identified")
              then "### ❌ Missing Requirements" ++ nl ++ show (missing_requirements a) ++ nl ++ nl
              else "")
          ++ (if truthy (implementation_quality a)
              then "### 🔍 Implementation Quality" ++ nl ++ show (implementation_quality a) ++ nl ++ nl
              else "") in
        let tail :=
          (if strict_eq_str (risk_level a) "HIGH"
           then "### 🚨 High Risk Notice" ++ nl
                ++ "This PR has been flagged as high risk. Please ensure thorough review and testing before merging."
                ++ nl ++ nl
           else "")
          ++ (if no_issues
              then "### 💡 Future Recommendations" ++ nl
                   ++ "- Consider linking related issues to provide better context for code reviews" ++ nl
                   ++ "- Include more detailed PR descriptions to explain the purpose and scope of changes"
                   ++ nl ++ nl
              else "")
          ++ "---" ++ nl ++ "*🤖 Analysis performed by Claude-powered PR Issue Correctness Checker*" in
        match recommendations a with
        | [] => Ok (head ++ tail)
        | recs => bind (rec_lines recs) (fun lines =>
                    Ok (head ++ "### 💡 Recommendations" ++ nl ++ lines ++ nl ++ tail))
        end
    end.

End Generate.

(* ================================================================= *)
(** * Properties *)

Ltac unfold_monad :=
  unfold mbind, ret, throw, send, ask, try_catch in *.

(** The issues whose individual fetch returns a body. *)
Definition fetched_issues (e : env) (ns : list nat) : list raw_issue :=
  flat_map (fun n => match issue_fetch e n with FOk i => [i] | _ => [] end) ns.

(** How the payload's fields reach the result: a field the payload lacks
    takes the default [d]; a field with a truthy value [x] is kept as
    [x], whatever its type or range. *)
Definition field_rule (o : option jvalue) (d out : jvalue) : Prop :=
  (o = None -> out = d) /\ (forall x, o = Some x -> truthy x = true -> out = x).

(** [recommendations]: an array is kept as given, a missing value
    becomes the one default line, any other truthy value [v] becomes [[v]]. *)
Definition recs_rule (o : option jvalue) (out : list jvalue) : Prop :=
  (o = None -> out = [JStr "No specific recommendations"])
  /\ (forall xs, o = Some (JArr xs) -> out = xs)
  /\ (forall x, o = Some x -> truthy x = true -> (forall xs, x <> JArr xs) -> out = [x]).

(** Whether an edit or a post answered with a success status. *)
Definition posted (o : fetch_outcome unit) : bool :=
  match o with FOk _ => true | _ => false end.

(** ** Concrete inputs *)

Definition file_of (name : string) (n : nat) : file_change :=
  {| filename := name; status := "modified"; additions := n; deletions := 0;
     changes := n; patch := None |}.

Definition pr_of (t : string) : pr_data :=
  {| pr_title := t; pr_body := None; pr_number := 7; pr_user := "octocat";
     pr_additions := 0; pr_deletions := 0; pr_changed_files := 0 |}.

(** A run with no API key whose PR links issue 42, whose fetch fails. *)
Definition env_issue_missing : env :=
  {| anthropicApiKey := None;
     pr_fetch := FOk (pr_of "Fixes #42");
     issue_fetch := fun _ => FNotOk "Not Found";
     files_fetch := FOk [file_of "README.md" 2; file_of "src/index.ts" 120];
     model_reply := fun _ => None |}.

(** A run whose PR links nothing and changes one line of code. *)
Definition env_one_line : env :=
  {| anthropicApiKey := None;
     pr_fetch := FOk (pr_of "Tidy up");
     issue_fetch := fun _ => FNotOk "Not Found";
     files_fetch := FOk [file_of "src/a.js" 1];
     model_reply := fun _ => None |}.

(** A run whose PR metadata fetch answers 404. *)
Definition env_pr_missing : env :=
  {| anthropicApiKey := None;
     pr_fetch := FNotOk "Not Found";
     issue_fetch := fun _ => FNotOk "Not Found";
     files_fetch := FOk [];
     model_reply := fun _ => None |}.

Definition issue_bug : issue :=
  {| number := 1; title := "bug"; body := ""; labels := []; state := "open";
     assignee := None |}.

(** [{"correctness_score": "high", "risk_level": "banana"}] in prose. *)
Definition response_nonconforming : string :=
  "Result: {" ++ dqs ++ "correctness_score" ++ dqs ++ ": " ++ dqs ++ "high" ++ dqs
  ++ ", " ++ dqs ++ "risk_level" ++ dqs ++ ": " ++ dqs ++ "banana" ++ dqs ++ "} done".

(** [{"correctness_score": 8, "recommendations": "add tests"}]. *)
Definition response_scalar_recs : string :=
  "{" ++ dqs ++ "correctness_score" ++ dqs ++ ": 8, " ++ dqs ++ "recommendations"
  ++ dqs ++ ": " ++ dqs ++ "add tests" ++ dqs ++ "}".

Definition bot_comment : CommentHandler.gh_comment :=
  {| CommentHandler.id := 11; CommentHandler.user_type := Some "Bot";
     CommentHandler.comment_body := "## PR Issue Correctness Analysis" |}.

Definition user_comment : CommentHandler.gh_comment :=
  {| CommentHandler.id := 10; CommentHandler.user_type := Some "User";
     CommentHandler.comment_body := "looks good" |}.

Definition comments_ok : CommentHandler.comment_env :=
  {| CommentHandler.pr_comments := [user_comment; bot_comment];
     CommentHandler.list_resp := FOk tt;
     CommentHandler.patch_resp := fun _ _ => FOk tt;
     CommentHandler.post_resp := fun _ => FOk tt |}.

(** Thirty user comments (ids 100 to 129), then the bot's analysis
    comment: it is the 31st comment of the PR. *)
Definition comments_page2 : CommentHandler.comment_env :=
  {| CommentHandler.pr_comments :=
       (map (fun i => {| CommentHandler.id := 100 + i;
                         CommentHandler.user_type := Some "User";
                         CommentHandler.comment_body := "ping" |}) (seq 0 30)
        ++ [bot_comment])%list;
     CommentHandler.list_resp := FOk tt;
     CommentHandler.patch_resp := fun _ _ => FOk tt;
     CommentHandler.post_resp := fun _ => FOk tt |}.

(** A comment whose [user] is [null], then the bot's analysis comment. *)
Definition comments_null_user : CommentHandler.comment_env :=
  {| CommentHandler.pr_comments :=
       [{| CommentHandler.id := 9; CommentHandler.user_type := None;
           CommentHandler.comment_body := "hello" |}; bot_comment];
     CommentHandler.list_resp := FOk tt;
     CommentHandler.patch_resp := fun _ _ => FOk tt;
     CommentHandler.post_resp := fun _ => FOk tt |}.

(** ** Helpers of the further properties *)

(** The same run with the API key [k]. *)
Definition with_key (e : env) (k : option string) : env :=
  {| anthropicApiKey := k; pr_fetch := pr_fetch e; issue_fetch := issue_fetch e;
     files_fetch := files_fetch e; model_reply := model_reply e |}.

Definition is_model_request (r : request) : bool :=
  match r with ReqModel _ => true | _ => false end.

(** A recommendation list holds the string [s]. *)
Definition rec_has (recs : list jvalue) (s : string) : bool :=
  existsb (fun v => strict_eq_str v s) recs.

(** A value [rec.trim()] throws on: truthy and not a string. *)
Definition trim_throws (v : jvalue) : Prop :=
  truthy v = true /\ (forall s, v <> JStr s) /\ (forall us, v <> JWStr us).

(** The same PR with the body [b]. *)
Definition with_body (pr : pr_data) (b : option string) : pr_data :=
  {| pr_title := pr_title pr; pr_body := b; pr_number := pr_number pr;
     pr_user := pr_user pr; pr_additions := pr_additions pr;
     pr_deletions := pr_deletions pr; pr_changed_files := pr_changed_files pr |}.

(** A string conversion for the concrete comments: strings as they are. *)
Definition show_plain (v : jvalue) : string :=
  match v with JStr s => s | _ => "" end.

(** [{"recommendations": [1]}]. *)
Definition response_numeric_recs : string :=
  "{" ++ dqs ++ "recommendations" ++ dqs ++ ": [1]}".

(** A keyed run without linked issues whose model reply lists a number. *)
Definition env_numeric_recs : env :=
  {| anthropicApiKey := Some "sk-test";
     pr_fetch := FOk (pr_of "Tidy up");
     issue_fetch := fun _ => FNotOk "Not Found";
     files_fetch := FOk [file_of "src/index.ts" 120];
     model_reply := fun _ => Some response_numeric_recs |}.

(** The analysis of that run. *)
Definition fa_numeric : final_analysis :=
  match result (fst (run_analyzePR env_numeric_recs)) with
  | Some fa => fa
  | None => {| an := no_changes_analysis; linkedIssues := [];
               prData := summarize (pr_of "Tidy up") |}
  end.

(** The comment generated for the run [env_one_line]. *)
Definition comment_one_line : string :=
  match generateComment show_plain "now" (fst (run_analyzePR env_one_line)) "7" with
  | Ok c => c
  | Exn _ => ""
  end.

(** A listing that holds that comment, posted by the workflow's bot. *)
Definition ce_own_comment : CommentHandler.comment_env :=
  {| CommentHandler.pr_comments :=
       [user_comment;
        {| CommentHandler.id := 12; CommentHandler.user_type := Some "Bot";
           CommentHandler.comment_body := comment_one_line |}];
     CommentHandler.list_resp := FOk tt;
     CommentHandler.patch_resp := fun _ _ => FOk tt;
     CommentHandler.post_resp := fun _ => FOk tt |}.

Lemma fetch_loop_spec : forall ns e acc log,
  fetch_loop acc ns e log =
  (Ok (acc ++ map to_issue (fetched_issues e ns))%list, (log ++ map ReqIssue ns)%list).
Proof.
  induction ns as [|n ns IH]; intros e acc log; simpl.
  - rewrite !app_nil_r. reflexivity.
  - unfold fetch_one; unfold_monad.
    destruct (issue_fetch e n) as [i|st|m]; rewrite IH; simpl;
      rewrite <- !app_assoc; reflexivity.
Qed.

Lemma parseClaudeResponse_ok : forall response,
  exists a, parseClaudeResponse response = Ok a.
Proof.
  intro response. unfold parseClaudeResponse.
  destruct (match json_match response with
            | Some m => _ | None => _ end) as [[a|]|x]; eauto.
Qed.

Lemma analyzeWith_ok : forall r fb e log,
  exists a, analyzeWith r fb e log = (Ok a, (log ++ [ReqModel r])%list)
            /\ (a = fb \/ exists text, model_reply e r = Some text
                                    /\ parseClaudeResponse text = Ok a).
Proof.
  intros r fb e log. unfold analyzeWith; unfold_monad.
  destruct (model_reply e r) as [text|].
  - destruct (parseClaudeResponse_ok text) as [a Ha]. rewrite Ha.
    exists a. split; [reflexivity|]. right. eauto.
  - exists fb. auto.
Qed.

Lemma truncate_patch_filename : forall f, filename (truncate_patch f) = filename f.
Proof. reflexivity. Qed.

Lemma truncate_patch_changes : forall f, changes (truncate_patch f) = changes f.
Proof. reflexivity. Qed.

(** The run, once the PR and its files are fetched, in closed form. *)
Lemma run_analyzePR_ok : forall e pd files,
  pr_fetch e = FOk pd -> files_fetch e = FOk files ->
  let ns := extractIssueNumbers pd in
  let fs := map truncate_patch files in
  let issues := map to_issue (fetched_issues e ns) in
  let log0 := ([ReqPR] ++ map ReqIssue ns ++ [ReqFiles])%list in
  if negb (hasMeaningfulChanges fs) && Nat.eqb (length ns) 0 then
    run_analyzePR e =
    ({| success := true; error := None;
        result := Some {| an := no_changes_analysis; linkedIssues := ns;
                          prData := summarize pd |} |}, log0)
  else exists a log,
    run_analyzePR e =
    ({| success := true; error := None;
        result := Some {| an := a; linkedIssues := ns;
                          prData := summarize pd |} |}, log)
    /\ (a = performBasicAnalysis pd issues fs
        \/ (exists r text, In (ReqModel r) log /\ model_reply e r = Some text
                           /\ parseClaudeResponse text = Ok a)
        \/ (a = performBasicAnalysis pd [] fs)).
Proof.
  intros e pd files Hpr Hfiles. cbv zeta.
  unfold run_analyzePR, analyzePR, fetchPRData, fetchPRFiles.
  unfold_monad. rewrite Hpr, Hfiles. cbv beta iota zeta.
  remember (extractIssueNumbers pd) as ns eqn:Hns.
  remember (map truncate_patch files) as fs eqn:Hfs.
  remember (map to_issue (fetched_issues e ns)) as issues eqn:Hissues.
  assert (Hiss : forall log, (if 0 <? length ns then fetchIssues ns else
                  (fun (_ : env) (log : list request) => (Ok [], log))) e log
                  = (Ok issues, (log ++ map ReqIssue ns)%list)).
  { intro log. destruct ns as [|n ns'].
    - simpl. subst issues. rewrite app_nil_r. reflexivity.
    - simpl. unfold fetchIssues. rewrite fetch_loop_spec. subst issues.
      reflexivity. }
  rewrite Hiss.
  destruct (negb (hasMeaningfulChanges fs) && Nat.eqb (length ns) 0) eqn:Hsc.
  - simpl. reflexivity.
  - destruct (key_set (anthropicApiKey e)) eqn:Hkey.
    + destruct (Nat.eqb (length ns) 0) eqn:Hz.
      * unfold analyzeWithClaudeNoIssues.
        destruct (analyzeWith_ok (PromptNoIssues pd fs) (performBasicAnalysis pd [] fs)
                    e ((([] ++ [ReqPR]) ++ map ReqIssue ns) ++ [ReqFiles])%list)
          as [a [Ha [Hfb | [text [Ht Hp]]]]]; rewrite Ha;
          eexists; eexists; split; try reflexivity.
        -- right; right; exact Hfb.
        -- right; left. exists (PromptNoIssues pd fs), text.
           split; [apply in_or_app; right; left; reflexivity|]. auto.
      * unfold analyzeWithClaude.
        destruct (analyzeWith_ok (PromptWithIssues pd issues fs)
                    (performBasicAnalysis pd issues fs)
                    e ((([] ++ [ReqPR]) ++ map ReqIssue ns) ++ [ReqFiles])%list)
          as [a [Ha [Hfb | [text [Ht Hp]]]]]; rewrite Ha;
          eexists; eexists; split; try reflexivity.
        -- left; exact Hfb.
        -- right; left. exists (PromptWithIssues pd issues fs), text.
           split; [apply in_or_app; right; left; reflexivity|]. auto.
    + eexists; eexists; split; [reflexivity|]. left; reflexivity.
Qed.

Lemma run_analyzePR_pr_fail : forall e,
  (forall pd, pr_fetch e <> FOk pd) ->
  success (fst (run_analyzePR e)) = false.
Proof.
  intros e H. unfold run_analyzePR, analyzePR, fetchPRData. unfold_monad.
  destruct (pr_fetch e) as [pd|st|m]; [exfalso; eapply H; reflexivity | |];
    reflexivity.
Qed.

Lemma run_analyzePR_files_fail : forall e pd,
  pr_fetch e = FOk pd -> (forall fs, files_fetch e <> FOk fs) ->
  success (fst (run_analyzePR e)) = false.
Proof.
  intros e pd Hpr H. unfold run_analyzePR, analyzePR, fetchPRData, fetchPRFiles.
  unfold_monad. rewrite Hpr. cbv beta iota zeta.
  destruct (0 <? length (extractIssueNumbers pd)).
  - unfold fetchIssues. rewrite fetch_loop_spec.
    destruct (files_fetch e) as [fs|st|m]; [exfalso; eapply H; reflexivity | |];
      reflexivity.
  - destruct (files_fetch e) as [fs|st|m]; [exfalso; eapply H; reflexivity | |];
      reflexivity.
Qed.

(** ** C1 *)

(** C1: in every run where [analyzePR] succeeds, the PR metadata was
    fetched and the result's [linkedIssues] is exactly
    [extractIssueNumbers] of it, whatever the issue fetches returned;
    [fetchIssues] never fails and keeps, in order, just the issues whose
    fetch returned a body, after requesting every extracted number. *)
Theorem analyzePR_linkedIssues : forall e,
  success (fst (run_analyzePR e)) = true ->
  exists pd fa,
    pr_fetch e = FOk pd
    /\ result (fst (run_analyzePR e)) = Some fa
    /\ linkedIssues fa = extractIssueNumbers pd
    /\ (forall ns log, fetchIssues ns e log =
          (Ok (map to_issue (fetched_issues e ns)), (log ++ map ReqIssue ns)%list)).
Proof.
  intros e Hs.
  destruct (pr_fetch e) as [pd|st|m] eqn:Hpr;
    [| rewrite run_analyzePR_pr_fail in Hs by (rewrite Hpr; discriminate);
       discriminate
     | rewrite run_analyzePR_pr_fail in Hs by (rewrite Hpr; discriminate);
       discriminate].
  destruct (files_fetch e) as [files|st|m] eqn:Hf;
    [| rewrite (run_analyzePR_files_fail e pd) in Hs by (auto; rewrite Hf; discriminate);
       discriminate
     | rewrite (run_analyzePR_files_fail e pd) in Hs by (auto; rewrite Hf; discriminate);
       discriminate].
  assert (Hfi : forall ns log, fetchIssues ns e log =
            (Ok (map to_issue (fetched_issues e ns)), (log ++ map ReqIssue ns)%list))
    by (intros; unfold fetchIssues; rewrite fetch_loop_spec; reflexivity).
  pose proof (run_analyzePR_ok e pd files Hpr Hf) as Hrun. cbv zeta in Hrun.
  destruct (negb _ && _).
  - rewrite Hrun. simpl. eexists; eexists; repeat split; eauto.
  - destruct Hrun as [a [log [Hrun _]]]. rewrite Hrun. simpl.
    eexists; eexists; repeat split; eauto.
Qed.

(** ** The no-changes short-circuit *)

Lemma total_changes_aux : forall l a,
  fold_left (fun sum file => sum + changes file) l a
  = a + fold_left (fun sum file => sum + changes file) l 0.
Proof.
  induction l as [|f l IH]; intro a; simpl; [lia|].
  rewrite (IH (a + changes f)), (IH (changes f)). lia.
Qed.

Lemma total_changes_truncate : forall fs,
  total_changes (map truncate_patch fs) = total_changes fs.
Proof.
  unfold total_changes. induction fs as [|f fs IH]; simpl; [reflexivity|].
  rewrite total_changes_aux, (total_changes_aux fs), IH. reflexivity.
Qed.

Lemma meaningfulFiles_truncate : forall fs,
  meaningfulFiles (map truncate_patch fs) = map truncate_patch (meaningfulFiles fs).
Proof.
  unfold meaningfulFiles. induction fs as [|f fs IH]; [reflexivity|].
  cbn [map filter]. unfold isSkippableFile at 1.
  cbn [filename changes truncate_patch]. fold (isSkippableFile f).
  destruct (negb (isSkippableFile f) || (5 <? changes f)); cbn [map];
    rewrite IH; reflexivity.
Qed.

Lemma hasMeaningfulChanges_truncate : forall fs,
  hasMeaningfulChanges (map truncate_patch fs) = hasMeaningfulChanges fs.
Proof.
  intro fs. unfold hasMeaningfulChanges.
  rewrite length_map, total_changes_truncate, meaningfulFiles_truncate, length_map.
  assert (Hx : forall l, existsb (fun file => 1 <? changes file) (map truncate_patch l)
                        = existsb (fun file => 1 <? changes file) l)
    by (induction l as [|f l IH]; simpl; [reflexivity | rewrite IH; reflexivity]).
  rewrite Hx. reflexivity.
Qed.

Lemma hasMeaningfulChanges_false : forall fs,
  hasMeaningfulChanges fs = false <->
  fs = [] \/ total_changes fs = 0 \/ meaningfulFiles fs = []
  \/ Forall (fun f => changes f <= 1) (meaningfulFiles fs).
Proof.
  intro fs. unfold hasMeaningfulChanges.
  destruct (Nat.eqb (length fs) 0) eqn:H0.
  - apply Nat.eqb_eq, length_zero_iff_nil in H0. subst. simpl. intuition.
  - destruct (Nat.eqb (total_changes fs) 0) eqn:H1.
    + apply Nat.eqb_eq in H1. intuition.
    + apply Nat.eqb_neq in H0, H1.
      assert (fs <> []) by (intro; subst; simpl in H0; lia).
      rewrite andb_false_iff, Nat.ltb_ge.
      rewrite <- not_true_iff_false, existsb_exists, Forall_forall.
      split.
      * intros [Hl | Hex].
        -- right; right; left. destruct (meaningfulFiles fs); simpl in Hl; [reflexivity|lia].
        -- right; right; right. intros f Hf.
           destruct (1 <? changes f) eqn:Hc; [exfalso; eauto | apply Nat.ltb_ge in Hc; lia].
      * intros [Hn | [Ht | [Hm | Hall]]]; [contradiction | contradiction | |].
        -- left. rewrite Hm. reflexivity.
        -- right. intros [f [Hf Hc]]. apply Hall in Hf. apply Nat.ltb_lt in Hc. lia.
Qed.

Lemma from_json_type : forall p a, from_json p = Ok a -> analysis_type a = "AI-Powered".
Proof.
  intros p a H. unfold from_json, bind in H.
  repeat match type of H with
         | context [read_prop ?v ?k] => destruct (read_prop v k); [|discriminate]
         end.
  inversion H; reflexivity.
Qed.

Lemma parseClaudeResponse_type : forall text a,
  parseClaudeResponse text = Ok a ->
  analysis_type a = "AI-Powered" \/ analysis_type a = "AI-Powered (Parsed)".
Proof.
  intros text a H. unfold parseClaudeResponse in H.
  destruct (json_match text) as [m|].
  - destruct (JSON_parse m) as [p|x]; simpl in H.
    + destruct (from_json p) as [a'|x] eqn:Hj; simpl in H.
      * inversion H; subst. left. eapply from_json_type; eauto.
      * inversion H; subst. right. reflexivity.
    + inversion H; subst. right. reflexivity.
  - inversion H; subst. right. reflexivity.
Qed.

Lemma performBasicAnalysis_type : forall pd issues fs,
  analysis_type (performBasicAnalysis pd issues fs) <> "No Changes Analysis".
Proof.
  intros. unfold performBasicAnalysis.
  destruct (basic_scores pd issues fs) as [[[? ?] ?] ?]. simpl.
  destruct (0 <? length issues); discriminate.
Qed.

Lemma shortcircuit_cond : forall (ns : list nat) (fs : list file_change),
  negb (hasMeaningfulChanges fs) && Nat.eqb (length ns) 0 = true <->
  ns = [] /\ (fs = [] \/ total_changes fs = 0 \/ meaningfulFiles fs = []
              \/ Forall (fun f => changes f <= 1) (meaningfulFiles fs)).
Proof.
  intros ns fs. rewrite andb_true_iff, negb_true_iff, hasMeaningfulChanges_false,
    Nat.eqb_eq, length_zero_iff_nil. tauto.
Qed.

(** C2 (as the code has it): once the PR and its files are fetched, the
    short-circuit result (analysis type "No Changes Analysis") is returned
    iff no issue number was extracted AND the file list is empty, or its
    changes sum to 0, or the low-signal filter leaves no file, or no file
    left by the filter has more than 1 changed line; that result has both
    scores "N/A" and risk "LOW", and the run made no request besides the
    PR and its files (no model call). *)
Theorem no_changes_shortcircuit : forall e pd files,
  pr_fetch e = FOk pd -> files_fetch e = FOk files ->
  ((exists fa, result (fst (run_analyzePR e)) = Some fa
               /\ analysis_type (an fa) = "No Changes Analysis")
   <-> extractIssueNumbers pd = [] /\
       (files = [] \/ total_changes files = 0 \/ meaningfulFiles files = []
        \/ Forall (fun f => changes f <= 1) (meaningfulFiles files)))
  /\ (forall fa, result (fst (run_analyzePR e)) = Some fa ->
        analysis_type (an fa) = "No Changes Analysis" ->
        correctness_score (an fa) = JStr "N/A"
        /\ completeness_score (an fa) = JStr "N/A"
        /\ risk_level (an fa) = JStr "LOW"
        /\ snd (run_analyzePR e) = [ReqPR; ReqFiles]).
Proof.
  intros e pd files Hpr Hf.
  pose proof (run_analyzePR_ok e pd files Hpr Hf) as Hrun. cbv zeta in Hrun.
  rewrite hasMeaningfulChanges_truncate in Hrun.
  destruct (negb (hasMeaningfulChanges files) && Nat.eqb (length (extractIssueNumbers pd)) 0)
    eqn:Hc.
  - pose proof Hc as Hc'. apply shortcircuit_cond in Hc'.
    rewrite Hrun. simpl. split.
    + split; [intros _; exact Hc' | intros _; eexists; split; reflexivity].
    + intros fa Hfa _. inversion Hfa; subst. simpl.
      destruct Hc' as [Hn _]. rewrite Hn. repeat split.
  - destruct Hrun as [a [log [Hrun Ha]]]. rewrite Hrun. simpl.
    assert (Hna : analysis_type a <> "No Changes Analysis").
    { destruct Ha as [Ha | [[r [text [_ [_ Hp]]]] | Ha]].
      - subst. apply performBasicAnalysis_type.
      - apply parseClaudeResponse_type in Hp. destruct Hp as [Hp|Hp]; rewrite Hp;
          discriminate.
      - subst. apply performBasicAnalysis_type. }
    split.
    + split.
      * intros [fa [Hfa Ht]]. inversion Hfa; subst. simpl in Ht. contradiction.
      * intro H. apply shortcircuit_cond in H. congruence.
    + intros fa Hfa Ht. inversion Hfa; subst. simpl in Ht. contradiction.
Qed.

(** ** Issue-number extraction *)





(** ** Heuristic scores *)

Lemma riskFactors_length : forall files,
  length (riskFactors files) =
  length (filter (fun b : bool => b)
            [500 <? total_changes files; 20 <? length files;
             negb (hasTests files); coreFiles files]).
Proof.
  intro files. unfold riskFactors.
  destruct (500 <? total_changes files), (20 <? length files),
    (hasTests files), (coreFiles files); reflexivity.
Qed.

(** C4 (as the code has it): with at least one fetched issue, correctness
    is [min 10 (max 1 (2 * k + (2 if tests)))] where [k] counts the six
    keywords occurring in both lower-cased texts, and completeness is
    [(8 if at most 2 issues else 6) + (1 if docs) + (1 if tests)]; so
    correctness lies in [1, 10] and completeness in [6, 10]. *)
Theorem basic_scores_with_issues : forall pd issues files,
  issues <> [] ->
  let tests := hasTests files in
  let docs := hasDocumentation files in
  let k := length (filter (fun kw => includes (issueText issues) kw
                                     && includes (toLowerCase (pr_text pd)) kw)
                          keywords) in
  let a := performBasicAnalysis pd issues files in
  correctness_score a = JInt (Nat.min 10 (Nat.max 1 (2 * k + (if tests then 2 else 0))))
  /\ completeness_score a =
       JInt ((if length issues <=? 2 then 8 else 6)
             + (if docs then 1 else 0) + (if tests then 1 else 0))
  /\ exists c p, correctness_score a = JInt c /\ completeness_score a = JInt p
                 /\ 1 <= c <= 10 /\ 6 <= p <= 10.
Proof.
  intros pd issues files Hne tests docs k a.
  assert (Hl : Nat.ltb 0 (List.length issues) = true)
    by (destruct issues; [contradiction | reflexivity]).
  assert (Hcs : fst (fst (fst (basic_scores pd issues files)))
                = clamp 1 (keywordMatches pd issues * 2 + b2n tests 2))
    by (unfold basic_scores; rewrite Hl; reflexivity).
  assert (Hps : snd (fst (fst (basic_scores pd issues files)))
                = clamp 1 ((if List.length issues <=? 2 then 8 else 6)
                           + b2n docs 1 + b2n tests 1))
    by (unfold basic_scores; rewrite Hl; reflexivity).
  destruct (basic_scores pd issues files) as [[[cs ps] mr] iq] eqn:Hb.
  simpl in Hcs, Hps.
  assert (Hc : correctness_score a =
               JInt (Nat.min 10 (Nat.max 1 (2 * k + (if tests then 2 else 0))))).
  { unfold a, performBasicAnalysis. rewrite Hb. cbv beta iota zeta.
    cbn [correctness_score]. rewrite Hcs.
    unfold clamp, b2n. f_equal. f_equal. f_equal.
    unfold k, keywordMatches. cbv zeta. lia. }
  assert (Hp : completeness_score a =
               JInt ((if List.length issues <=? 2 then 8 else 6)
                     + (if docs then 1 else 0) + (if tests then 1 else 0))).
  { unfold a, performBasicAnalysis. rewrite Hb. cbv beta iota zeta.
    cbn [completeness_score]. rewrite Hps.
    unfold clamp, b2n. f_equal.
    destruct (List.length issues <=? 2), docs, tests; reflexivity. }
  split; [exact Hc|]. split; [exact Hp|].
  eexists; eexists; split; [exact Hc|]; split; [exact Hp|].
  split; [lia|]. destruct (List.length issues <=? 2), docs, tests; simpl; lia.
Qed.

(** ** Heuristic risk level *)

(** C7: the heuristic risk level is HIGH iff more than 2 of the four
    factors hold (more than 500 changed lines, more than 20 files, no test
    file, a config-like path), MEDIUM iff 1 or 2 hold, LOW iff none. *)
Theorem basic_risk_level : forall pd issues files,
  let n := length (filter (fun b : bool => b)
             [500 <? total_changes files; 20 <? length files;
              negb (hasTests files); coreFiles files]) in
  let a := performBasicAnalysis pd issues files in
  (risk_level a = JStr "HIGH" <-> 2 < n)
  /\ (risk_level a = JStr "MEDIUM" <-> 1 <= n <= 2)
  /\ (risk_level a = JStr "LOW" <-> n = 0).
Proof.
  intros pd issues files n a.
  assert (Hr : risk_level a = JStr (risk_of n)).
  { unfold a, performBasicAnalysis.
    destruct (basic_scores pd issues files) as [[[? ?] ?] ?]. simpl.
    rewrite riskFactors_length. reflexivity. }
  rewrite Hr. unfold risk_of.
  destruct (2 <? n) eqn:H2; [apply Nat.ltb_lt in H2 | apply Nat.ltb_ge in H2];
    [| destruct (0 <? n) eqn:H0; [apply Nat.ltb_lt in H0 | apply Nat.ltb_ge in H0]];
    repeat split; intros; first [reflexivity | discriminate | lia].
Qed.

(* ================================================================= *)
(** ** The JSON path of [parseClaudeResponse] *)

Lemma index_of_drop : forall c s i,
  index_of c s = Some i -> exists t, drop_n i s = String c t.
Proof.
  intros c s. induction s as [|d s IH]; intros i H; simpl in H; [discriminate|].
  destruct (Ascii.eqb c d) eqn:E.
  - inversion H; subst. apply Ascii.eqb_eq in E. subst. simpl. eauto.
  - destruct (index_of c s) as [j|]; [|discriminate].
    inversion H; subst. simpl. apply IH. reflexivity.
Qed.

(** The greedy match starts at a ['{']. *)
Lemma json_match_brace : forall response m,
  json_match response = Some m -> exists t, m = String "{" t.
Proof.
  intros response m H. unfold json_match in H.
  destruct (index_of "{" response) as [i|] eqn:Hi; [|discriminate].
  destruct (index_of_drop _ _ _ Hi) as [t Ht]. cbv zeta in H. rewrite Ht in H.
  destruct (last_index_of "}" (String "{" t)); [|discriminate].
  destruct (0 <? n); [|discriminate].
  inversion H. eexists. reflexivity.
Qed.

Lemma members_obj : forall f s acc v r,
  Json.members f s acc = Some (v, r) -> exists kvs, v = JObj kvs.
Proof.
  induction f as [|f IH]; intros s acc v r H; [discriminate|].
  cbn [Json.members] in H.
  destruct (Json.skip s) as [|c s1]; [discriminate|].
  destruct (Ascii.eqb c dq); [|discriminate].
  destruct (Json.str_body s1) as [[k r1]|]; [|discriminate].
  destruct (Json.skip r1) as [|d r2]; [discriminate|].
  destruct (Ascii.eqb d ":"); [|discriminate].
  destruct (Json.value f r2) as [[v0 r3]|]; [|discriminate].
  destruct (Json.skip r3) as [|g r4]; [discriminate|].
  destruct (Ascii.eqb g ","); [eapply IH; eassumption|].
  destruct (Ascii.eqb g "}"); [|discriminate].
  inversion H. eauto.
Qed.

Lemma value_brace : forall f t v r,
  Json.value f (String "{" t) = Some (v, r) -> exists kvs, v = JObj kvs.
Proof.
  intros [|f] t v r H; [discriminate|].
  cbn [Json.value] in H.
  change (Json.skip (String "{" t)) with (String "{" t) in H.
  cbv iota beta zeta in H.
  change (Ascii.eqb "{" "{") with true in H. cbv iota in H.
  destruct (Json.skip t) as [|d r']; [discriminate|].
  destruct (Ascii.eqb d "}"); [inversion H; eauto|].
  eapply members_obj; eassumption.
Qed.

(** A payload the greedy match finds and [JSON.parse] decodes is an
    object. *)
Lemma json_payload_object : forall response m v,
  json_match response = Some m -> JSON_parse m = Ok v -> exists kvs, v = JObj kvs.
Proof.
  intros response m v Hm Hp.
  destruct (json_match_brace _ _ Hm) as [t Ht]. subst m.
  unfold JSON_parse in Hp.
  destruct (Json.value _ (String "{" t)) as [[v' rest]|] eqn:Hv; [|discriminate].
  destruct (String.eqb (Json.skip rest) ""); [|discriminate].
  inversion Hp; subst. eapply value_brace; eassumption.
Qed.

Lemma js_or_truthy : forall x d, truthy x = true -> js_or (Some x) d = x.
Proof. intros x d H. unfold js_or. rewrite H. reflexivity. Qed.

Lemma field_rule_js_or : forall o d, field_rule o d (js_or o d).
Proof.
  intros o d. split; intros; subst; [reflexivity|].
  apply js_or_truthy; assumption.
Qed.

(** C5: when the greedy [{...}] match decodes, the payload is an object
    [kvs], the parse returns the model-based record ("AI-Powered"), and
    each of the six fields follows the payload: a missing field takes its
    default, a truthy value is kept as given (no type or range check);
    an array of recommendations is kept, a missing one becomes the one
    default line, any other truthy value [v] becomes [[v]]. *)
Theorem parseClaudeResponse_json_fields : forall response m v,
  json_match response = Some m -> JSON_parse m = Ok v ->
  exists kvs a,
    v = JObj kvs
    /\ parseClaudeResponse response = Ok a
    /\ analysis_type a = "AI-Powered"
    /\ field_rule (get_prop kvs "correctness_score") (JStr "N/A") (correctness_score a)
    /\ field_rule (get_prop kvs "completeness_score") (JStr "N/A") (completeness_score a)
    /\ field_rule (get_prop kvs "risk_level") (JStr "UNKNOWN") (risk_level a)
    /\ field_rule (get_prop kvs "missing_requirements") (JStr "Unable to determine")
                  (missing_requirements a)
    /\ field_rule (get_prop kvs "implementation_quality") (JStr "Not assessed")
                  (implementation_quality a)
    /\ recs_rule (get_prop kvs "recommendations") (recommendations a).
Proof.
  intros response m v Hm Hp.
  destruct (json_payload_object _ _ _ Hm Hp) as [kvs Hv]. subst v.
  eexists kvs, _. split; [reflexivity|].
  split; [unfold parseClaudeResponse; rewrite Hm; cbn [bind]; rewrite Hp; reflexivity|].
  cbn [analysis_type correctness_score completeness_score risk_level
       missing_requirements implementation_quality recommendations].
  split; [reflexivity|].
  repeat split; try apply field_rule_js_or.
  - intros Hn. rewrite Hn. reflexivity.
  - intros xs Hx. rewrite Hx. reflexivity.
  - intros x Hx Ht Hna. rewrite Hx.
    destruct x; try (rewrite js_or_truthy by exact Ht; reflexivity).
    exfalso. eapply Hna. reflexivity.
Qed.

(* ================================================================= *)
(** ** The text fallback *)

(** C6: the literal [/RISK_LEVEL[:\\s]* (LOW|MEDIUM|HIGH)/i] has no white
    space in its separator class: the fallback text "RISK_LEVEL: HIGH"
    yields risk "UNKNOWN", while "RISK_LEVEL:HIGH" yields "HIGH"; the
    score pattern, built from a string, does accept the space. *)
Theorem extractRiskLevel_space_unknown :
  parseClaudeResponse "RISK_LEVEL: HIGH" = Ok (from_text "RISK_LEVEL: HIGH")
  /\ risk_level (from_text "RISK_LEVEL: HIGH") = JStr "UNKNOWN"
  /\ extractRiskLevel "RISK_LEVEL:HIGH" = JStr "HIGH"
  /\ extractRiskLevel "risk_level:medium" = JStr "MEDIUM"
  /\ extractScore "CORRECTNESS_SCORE: 7" "CORRECTNESS_SCORE" = JInt 7.
Proof. repeat split; vm_compute; reflexivity. Qed.

Lemma upper_lower_char : forall c, upper_char (lower_char c) = upper_char c.
Proof. intros [[] [] [] [] [] [] [] []]; reflexivity. Qed.

Lemma starts_with_ci_upper : forall p r,
  starts_with_ci p r = true ->
  toUpperCase (substring 0 (String.length p) r) = toUpperCase p.
Proof.
  induction p as [|a p IH]; intros r H; [destruct r; reflexivity|].
  destruct r as [|b r]; [discriminate|].
  simpl in H. apply andb_true_iff in H. destruct H as [Hab Hr].
  apply Ascii.eqb_eq in Hab.
  unfold toUpperCase in *. simpl. f_equal; [|apply IH; exact Hr].
  rewrite <- (upper_lower_char a), <- (upper_lower_char b), Hab. reflexivity.
Qed.

Lemma search_first_inv : forall X (P : X -> Prop) (f : string -> option X) s x,
  (forall t y, f t = Some y -> P y) -> search_first f s = Some x -> P x.
Proof.
  intros X P f s x Hf. induction s as [|c s IH]; simpl;
    destruct (f _) eqn:E; intro H; try discriminate;
    try (inversion H; subst; eapply Hf; eassumption).
  apply IH. exact H.
Qed.

Lemma first_some_inv : forall A X (P : X -> Prop) (f : A -> option X) l x,
  (forall a y, In a l -> f a = Some y -> P y) -> first_some f l = Some x -> P x.
Proof.
  intros A X P f l x Hf. induction l as [|a l IH]; simpl; [discriminate|].
  destruct (f a) eqn:E; intro H.
  - inversion H; subst. eapply Hf; [left; reflexivity | eassumption].
  - apply IH; [intros; eapply Hf; [right|]; eassumption | exact H].
Qed.

Lemma extractRiskLevel_range : forall text,
  In (extractRiskLevel text) [JStr "LOW"; JStr "MEDIUM"; JStr "HIGH"; JStr "UNKNOWN"].
Proof.
  intro text. unfold extractRiskLevel.
  match goal with |- context [search_first ?f text] =>
    destruct (search_first f text) as [m|] eqn:E end;
    [|simpl; tauto].
  refine (search_first_inv _ (fun m => In (JStr (toUpperCase m))
            [JStr "LOW"; JStr "MEDIUM"; JStr "HIGH"; JStr "UNKNOWN"]) _ text m _ E).
  intros t y Hy. destruct (starts_with_ci "RISK_LEVEL" t); [|discriminate].
  remember (drop_while risk_sep (drop_n 10 t)) as r eqn:Er. clear Er.
  refine (first_some_inv _ _ (fun m => In (JStr (toUpperCase m))
            [JStr "LOW"; JStr "MEDIUM"; JStr "HIGH"; JStr "UNKNOWN"]) _ _ y _ Hy).
  intros lvl z Hin Hz. destruct (starts_with_ci lvl _) eqn:Hs; [|discriminate].
  injection Hz as <-. cbv beta. rewrite (starts_with_ci_upper _ _ Hs).
  destruct Hin as [<-|[<-|[<-|[]]]];
    [left | right; left | right; right; left]; reflexivity.
Qed.

(** C10: [parseClaudeResponse] returns a record for every input and never
    throws; a failed decode, or no [{...}] at all, gives the text
    fallback; there the risk level is one of LOW, MEDIUM, HIGH, or
    "UNKNOWN" when unmatched, an unmatched score is [null] and an
    unmatched section is [null]. *)
Theorem parseClaudeResponse_total : forall response,
  (exists a, parseClaudeResponse response = Ok a)
  /\ (forall m msg, json_match response = Some m -> JSON_parse m = Exn msg ->
        parseClaudeResponse response = Ok (from_text response))
  /\ (json_match response = None -> parseClaudeResponse response = Ok (from_text response))
  /\ In (extractRiskLevel response) [JStr "LOW"; JStr "MEDIUM"; JStr "HIGH"; JStr "UNKNOWN"]
  /\ (forall label, extractScore response label = JNull
                    \/ exists n, extractScore response label = JInt n)
  /\ (forall label, extractSection response label = JNull
                    \/ exists s, extractSection response label = JStr s).
Proof.
  intro response. split; [apply parseClaudeResponse_ok|].
  split; [intros m msg Hm Hp; unfold parseClaudeResponse; rewrite Hm; cbn [bind];
          rewrite Hp; reflexivity|].
  split; [intro Hm; unfold parseClaudeResponse; rewrite Hm; reflexivity|].
  split; [apply extractRiskLevel_range|].
  split; intro label.
  - unfold extractScore. destruct (search_first _ _); eauto.
  - unfold extractSection. destruct (search_first _ _); eauto.
Qed.

(* ================================================================= *)
(** ** Publishing the comment *)

Lemma find_first_app : forall A (p : A -> res bool) pre c post,
  Forall (fun x => p x = Ok false) pre -> p c = Ok true ->
  CommentHandler.find_first p (pre ++ c :: post)%list = Ok (Some c).
Proof.
  intros A p pre c post Hpre Hc. induction Hpre as [|x pre Hx _ IH]; simpl.
  - rewrite Hc. reflexivity.
  - rewrite Hx. exact IH.
Qed.

Lemma find_first_none : forall A (p : A -> res bool) l,
  Forall (fun x => p x = Ok false) l -> CommentHandler.find_first p l = Ok None.
Proof.
  intros A p l H. induction H as [|x l Hx _ IH]; simpl; [reflexivity|].
  rewrite Hx. exact IH.
Qed.

Lemma find_first_exn : forall A (p : A -> res bool) pre c post m,
  Forall (fun x => p x = Ok false) pre -> p c = Exn m ->
  CommentHandler.find_first p (pre ++ c :: post)%list = Exn m.
Proof.
  intros A p pre c post m Hpre Hc. induction Hpre as [|x pre Hx _ IH]; simpl.
  - rewrite Hc. reflexivity.
  - rewrite Hx. exact IH.
Qed.

(** C8: with [updateExisting = true], [postOrUpdateComment] looks only
    at the first page of the listing, the first [per_page] = 30 comments
    of the PR.  When that page holds a bot comment with the marker, and
    every comment before it has a user, the first one is edited in place
    (a PATCH of its id with the new body) and nothing is posted; when the
    page holds none (whatever the later comments are), a new comment is
    posted; when a comment with a [null] user comes first, the lookup
    throws and the call returns [false] without editing or posting; a
    failed listing, edit or post gives [false]; and the call never
    throws. *)
Theorem postOrUpdateComment_spec : forall ce comment log,
  (forall pre c post,
     CommentHandler.list_resp ce = FOk tt ->
     firstn CommentHandler.per_page (CommentHandler.pr_comments ce) = (pre ++ c :: post)%list ->
     Forall (fun x => CommentHandler.is_bot_analysis x = Ok false) pre ->
     CommentHandler.is_bot_analysis c = Ok true ->
     CommentHandler.postOrUpdateComment comment true ce log
     = (Ok (posted (CommentHandler.patch_resp ce (CommentHandler.id c) comment)),
        (log ++ [CommentHandler.ListComments;
                 CommentHandler.PatchComment (CommentHandler.id c) comment])%list))
  /\ (CommentHandler.list_resp ce = FOk tt ->
      Forall (fun x => CommentHandler.is_bot_analysis x = Ok false)
             (firstn CommentHandler.per_page (CommentHandler.pr_comments ce)) ->
      CommentHandler.postOrUpdateComment comment true ce log
      = (Ok (posted (CommentHandler.post_resp ce comment)),
         (log ++ [CommentHandler.ListComments; CommentHandler.PostComment comment])%list))
  /\ (forall pre c post,
        CommentHandler.list_resp ce = FOk tt ->
        firstn CommentHandler.per_page (CommentHandler.pr_comments ce) = (pre ++ c :: post)%list ->
        Forall (fun x => CommentHandler.is_bot_analysis x = Ok false) pre ->
        CommentHandler.user_type c = None ->
        CommentHandler.postOrUpdateComment comment true ce log
        = (Ok false, (log ++ [CommentHandler.ListComments])%list))
  /\ ((forall u, CommentHandler.list_resp ce <> FOk u) ->
     CommentHandler.postOrUpdateComment comment true ce log
     = (Ok false, (log ++ [CommentHandler.ListComments])%list))
  /\ (forall ue, exists b log',
        CommentHandler.postOrUpdateComment comment ue ce log = (Ok b, log')).
Proof.
  intros ce comment log.
  unfold CommentHandler.postOrUpdateComment, CommentHandler.findExistingComment,
    CommentHandler.updateComment, CommentHandler.createComment, posted.
  unfold_monad.
  split; [|split; [|split; [|split]]].
  - intros pre c post Hl Hpg Hpre Hc. rewrite Hl, Hpg, find_first_app by assumption.
    rewrite <- app_assoc. destruct (CommentHandler.patch_resp _ _ _); reflexivity.
  - intros Hl Hcs. rewrite Hl, find_first_none by assumption.
    rewrite <- app_assoc. destruct (CommentHandler.post_resp _ _); reflexivity.
  - intros pre c post Hl Hpg Hpre Hc. rewrite Hl, Hpg.
    rewrite (find_first_exn _ _ pre c post
               "Cannot read properties of null (reading 'type')" Hpre)
      by (unfold CommentHandler.is_bot_analysis; rewrite Hc; reflexivity).
    reflexivity.
  - intros Hn. destruct (CommentHandler.list_resp ce) as [u|st|m];
      [exfalso; eapply Hn; reflexivity | |]; reflexivity.
  - intros [|].
    + destruct (CommentHandler.list_resp ce) as [u|st|m]; [|eauto|eauto].
      destruct (CommentHandler.find_first _ _) as [[c|]|m]; [| |eauto].
      * destruct (CommentHandler.patch_resp _ _ _); eauto.
      * destruct (CommentHandler.post_resp _ _); eauto.
    + destruct (CommentHandler.post_resp _ _); eauto.
Qed.

(* ================================================================= *)
(** ** A failed PR fetch *)

(** C9: when the PR fetch answers a non-success status [st], [analyzePR]
    makes no other request and returns the failure with message
    "Failed to fetch PR data: " ++ [st]; [main] then prints
    [success=false], risk [UNKNOWN], [comment_posted=false] and returns
    normally, so the exit status is 0. *)
Theorem pr_fetch_failure_outputs : forall generateComment show e ce sc ue st,
  pr_fetch e = FNotOk st ->
  run_analyzePR e = ({| success := false;
                        error := Some ("Failed to fetch PR data: " ++ st);
                        result := None |}, [ReqPR])
  /\ In ("success", "false") (fst (main generateComment show e ce sc ue))
  /\ In ("risk_level", "UNKNOWN") (fst (main generateComment show e ce sc ue))
  /\ In ("comment_posted", "false") (fst (main generateComment show e ce sc ue))
  /\ snd (main generateComment show e ce sc ue) = 0.
Proof.
  intros generateComment show e ce sc ue st Hpr.
  assert (Hr : run_analyzePR e = ({| success := false;
                        error := Some ("Failed to fetch PR data: " ++ st);
                        result := None |}, [ReqPR])).
  { unfold run_analyzePR, analyzePR, fetchPRData. unfold_monad. rewrite Hpr.
    reflexivity. }
  unfold main. rewrite Hr. cbn. repeat split; tauto.
Qed.

(* ================================================================= *)
(** * Witnesses and counterexamples on concrete runs *)

(** C1 on a run whose only linked issue (42) fails to fetch: the run
    succeeds, and 42 is still in [linkedIssues]. *)
Lemma analyzePR_linkedIssues_witness :
  success (fst (run_analyzePR env_issue_missing)) = true
  /\ fetched_issues env_issue_missing [42] = []
  /\ exists pd fa, pr_fetch env_issue_missing = FOk pd
       /\ result (fst (run_analyzePR env_issue_missing)) = Some fa
       /\ linkedIssues fa = extractIssueNumbers pd
       /\ linkedIssues fa = [42].
Proof.
  assert (Hs : success (fst (run_analyzePR env_issue_missing)) = true)
    by (vm_compute; reflexivity).
  split; [exact Hs|]. split; [reflexivity|].
  destruct (analyzePR_linkedIssues env_issue_missing Hs) as [pd [fa [Hp [Hr [Hl _]]]]].
  exists pd, fa. split; [exact Hp|]. split; [exact Hr|]. split; [exact Hl|].
  rewrite Hl. injection Hp as <-. vm_compute. reflexivity.
Defined.

(** C2 on a PR that links nothing and changes one line of code. *)
Lemma no_changes_shortcircuit_witness :
  exists fa, result (fst (run_analyzePR env_one_line)) = Some fa
    /\ analysis_type (an fa) = "No Changes Analysis"
    /\ correctness_score (an fa) = JStr "N/A"
    /\ risk_level (an fa) = JStr "LOW"
    /\ snd (run_analyzePR env_one_line) = [ReqPR; ReqFiles].
Proof.
  destruct (no_changes_shortcircuit env_one_line (pr_of "Tidy up") [file_of "src/a.js" 1]
              eq_refl eq_refl) as [Hiff Hres].
  assert (Hc : extractIssueNumbers (pr_of "Tidy up") = [] /\
               ([file_of "src/a.js" 1] = [] \/ total_changes [file_of "src/a.js" 1] = 0
                \/ meaningfulFiles [file_of "src/a.js" 1] = []
                \/ Forall (fun f => changes f <= 1) (meaningfulFiles [file_of "src/a.js" 1]))).
  { split; [vm_compute; reflexivity|]. right; right; right.
    vm_compute. repeat constructor. }
  destruct (proj2 Hiff Hc) as [fa [Hfa Ht]].
  destruct (Hres fa Hfa Ht) as [Hcs [_ [Hrl Hlog]]].
  exists fa. repeat split; assumption.
Defined.

(** C2: one changed line of code, no linked issue: the total is 1 and the
    filtered set is not empty, yet the short-circuit fires. *)
Lemma no_changes_one_line_counterexample :
  total_changes [file_of "src/a.js" 1] = 1
  /\ meaningfulFiles [file_of "src/a.js" 1] <> []
  /\ option_map (fun fa => analysis_type (an fa)) (result (fst (run_analyzePR env_one_line)))
     = Some "No Changes Analysis".
Proof.
  split; [reflexivity|]. split; [vm_compute; discriminate|].
  vm_compute. reflexivity.
Qed.


(** C4 on one issue "bug" and a PR "x" touching no test: no keyword is
    shared, and the correctness score is 1. *)
Lemma basic_scores_with_issues_witness :
  [issue_bug] <> []
  /\ correctness_score (performBasicAnalysis (pr_of "x") [issue_bug] [file_of "src/a.js" 10])
     = JInt 1
  /\ completeness_score (performBasicAnalysis (pr_of "x") [issue_bug] [file_of "src/a.js" 10])
     = JInt 8.
Proof.
  assert (Hne : [issue_bug] <> []) by discriminate.
  pose proof (basic_scores_with_issues (pr_of "x") [issue_bug] [file_of "src/a.js" 10] Hne)
    as H.
  cbv zeta in H. destruct H as [Hc [Hp _]].
  split; [exact Hne|]. rewrite Hc, Hp. split; vm_compute; reflexivity.
Defined.

(** C4: the score with no shared keyword and no test is 1, where a clamp
    to [0, 10] of the same sum gives 0. *)
Lemma basic_scores_floor_counterexample :
  correctness_score (performBasicAnalysis (pr_of "x") [issue_bug] [file_of "src/a.js" 10])
  = JInt 1
  /\ Nat.min 10 (Nat.max 0 (2 * keywordMatches (pr_of "x") [issue_bug]
                 + (if hasTests [file_of "src/a.js" 10] then 2 else 0))) = 0.
Proof. split; vm_compute; reflexivity. Qed.

(** C5 on [{"correctness_score": 8, "recommendations": "add tests"}]: the
    score is kept, the string recommendation becomes a one-element list. *)
Lemma parseClaudeResponse_json_fields_witness :
  json_match response_scalar_recs = Some response_scalar_recs
  /\ exists a, parseClaudeResponse response_scalar_recs = Ok a
       /\ correctness_score a = JInt 8
       /\ completeness_score a = JStr "N/A"
       /\ recommendations a = [JStr "add tests"].
Proof.
  assert (Hm : json_match response_scalar_recs = Some response_scalar_recs)
    by (vm_compute; reflexivity).
  assert (Hp : JSON_parse response_scalar_recs
               = Ok (JObj [(units_of "correctness_score", JInt 8);
                           (units_of "recommendations", JStr "add tests")]))
    by (vm_compute; reflexivity).
  destruct (parseClaudeResponse_json_fields _ _ _ Hm Hp)
    as [kvs [a [Hv [Ha [_ [Hc [Hq [_ [_ [_ Hr]]]]]]]]]].
  injection Hv as <-.
  split; [exact Hm|]. exists a. split; [exact Ha|].
  split; [apply (proj2 Hc (JInt 8)); reflexivity|].
  split; [apply (proj1 Hq); reflexivity|].
  apply (proj2 (proj2 Hr) (JStr "add tests")); [reflexivity | reflexivity |].
  intros xs Hx. discriminate Hx.
Defined.

(** C5: a string score and an unknown risk level are kept as given, not
    replaced by their defaults. *)
Lemma parseClaudeResponse_nonconforming_counterexample :
  match parseClaudeResponse response_nonconforming with
  | Ok a => correctness_score a = JStr "high" /\ risk_level a = JStr "banana"
            /\ analysis_type a = "AI-Powered"
  | Exn _ => False
  end.
Proof. vm_compute. repeat split. Qed.

(** C8 on a listing with a user comment, then the bot's analysis comment
    (id 11): the bot comment is edited, nothing is posted. *)
Lemma postOrUpdateComment_spec_witness :
  CommentHandler.postOrUpdateComment "new body" true comments_ok []
  = (Ok true, [CommentHandler.ListComments; CommentHandler.PatchComment 11 "new body"]).
Proof.
  destruct (postOrUpdateComment_spec comments_ok "new body" []) as [Hup _].
  apply (Hup [user_comment] bot_comment []);
    [reflexivity | reflexivity | constructor; [reflexivity | constructor] | reflexivity].
Defined.

(** C8: the bot's analysis comment is on the PR but is not edited.  As
    the 31st comment it lies past the first page of the listing, so a new
    comment is posted beside it; behind a comment whose user is [null],
    the lookup throws and the call returns [false] with no edit. *)
Lemma postOrUpdateComment_page_counterexample :
  In bot_comment (CommentHandler.pr_comments comments_page2)
  /\ CommentHandler.is_bot_analysis bot_comment = Ok true
  /\ CommentHandler.postOrUpdateComment "new body" true comments_page2 []
     = (Ok true, [CommentHandler.ListComments; CommentHandler.PostComment "new body"])
  /\ In bot_comment (CommentHandler.pr_comments comments_null_user)
  /\ CommentHandler.postOrUpdateComment "new body" true comments_null_user []
     = (Ok false, [CommentHandler.ListComments]).
Proof.
  split; [apply in_or_app; right; left; reflexivity|].
  split; [reflexivity|].
  split; [vm_compute; reflexivity|].
  split; [right; left; reflexivity|].
  vm_compute; reflexivity.
Qed.

(** C9 on a PR fetch answering "Not Found". *)
Lemma pr_fetch_failure_outputs_witness :
  pr_fetch env_pr_missing = FNotOk "Not Found"
  /\ error (fst (run_analyzePR env_pr_missing)) = Some "Failed to fetch PR data: Not Found"
  /\ snd (main (fun _ => Ok "") (fun _ => "") env_pr_missing comments_ok true true) = 0.
Proof.
  assert (Hp : pr_fetch env_pr_missing = FNotOk "Not Found") by reflexivity.
  destruct (pr_fetch_failure_outputs (fun _ => Ok "") (fun _ => "") env_pr_missing
              comments_ok true true "Not Found" Hp) as [Hr [_ [_ [_ Hx]]]].
  split; [exact Hp|]. rewrite Hr. split; [reflexivity | exact Hx].
Defined.

(** C9: the run whose PR fetch fails exits with status 0. *)
Lemma main_pr_missing_exit_zero :
  success (fst (run_analyzePR env_pr_missing)) = false
  /\ snd (main (fun _ => Ok "") (fun _ => "") env_pr_missing comments_ok true true) = 0.
Proof. split; vm_compute; reflexivity. Qed.

(** C10 on a response whose braces hold no JSON: the decode fails and the
    text fallback is returned. *)
Lemma parseClaudeResponse_total_witness :
  json_match "see {not json} here" = Some "{not json}"
  /\ JSON_parse "{not json}" = Exn "SyntaxError"
  /\ parseClaudeResponse "see {not json} here" = Ok (from_text "see {not json} here")
  /\ risk_level (from_text "see {not json} here") = JStr "UNKNOWN".
Proof.
  assert (Hm : json_match "see {not json} here" = Some "{not json}")
    by (vm_compute; reflexivity).
  assert (Hp : JSON_parse "{not json}" = Exn "SyntaxError") by (vm_compute; reflexivity).
  destruct (parseClaudeResponse_total "see {not json} here") as [_ [Hf _]].
  split; [exact Hm|]. split; [exact Hp|]. split; [exact (Hf _ _ Hm Hp)|].
  vm_compute. reflexivity.
Defined.

(* ================================================================= *)
(** * Further properties of the code *)

Lemma existsb_filter : forall A (p q : A -> bool) l,
  existsb p (filter q l) = existsb (fun x => q x && p x) l.
Proof.
  intros A p q l. induction l as [|x l IH]; simpl; [reflexivity|].
  destruct (q x); simpl; rewrite IH; reflexivity.
Qed.

Lemma changes_le_total : forall f fs, In f fs -> changes f <= total_changes fs.
Proof.
  intros f fs. unfold total_changes. induction fs as [|g fs IH]; intros H; [destruct H|].
  simpl. rewrite total_changes_aux. destruct H as [<-|H]; [lia|].
  specialize (IH H). lia.
Qed.

(** X1: [hasMeaningfulChanges] holds exactly when some file is kept by the low-signal filter (its name, lower-cased, does not end in .md, .txt, .gitignore, .yml, .yaml or .json, or it has more than 5 changed lines) and has more than 1 changed line; the checks of an empty list and of a zero total never decide anything else. *)
Theorem hasMeaningfulChanges_exists : forall fs,
  hasMeaningfulChanges fs
  = existsb (fun f => (negb (isSkippableFile f) || (5 <? changes f)) && (1 <? changes f)) fs.
Proof.
  intro fs. unfold hasMeaningfulChanges, meaningfulFiles.
  rewrite existsb_filter.
  destruct (existsb _ fs) eqn:E.
  - apply existsb_exists in E. destruct E as [f [Hin Hf]].
    apply andb_true_iff in Hf. destruct Hf as [Hq Hc]. apply Nat.ltb_lt in Hc.
    pose proof (changes_le_total f fs Hin) as Ht.
    destruct fs as [|g gs]; [destruct Hin|].
    assert (Hl : 0 < length (filter (fun file => negb (isSkippableFile file) || (5 <? changes file)) (g :: gs))).
    { destruct (filter _ _) eqn:Hfl; [|simpl; lia].
      assert (In f (filter (fun file => negb (isSkippableFile file) || (5 <? changes file)) (g :: gs)))
        by (apply filter_In; auto).
      rewrite Hfl in H. destruct H. }
    cbn [length Nat.eqb]. replace (Nat.eqb (total_changes (g :: gs)) 0) with false
      by (symmetry; apply Nat.eqb_neq; lia).
    apply Nat.ltb_lt in Hl. rewrite Hl. reflexivity.
  - destruct (Nat.eqb (length fs) 0); [reflexivity|].
    destruct (Nat.eqb (total_changes fs) 0); [reflexivity|].
    cbv zeta. apply andb_false_r.
Qed.

(** X2: the heuristic scores without linked issues: a PR whose title and body are both blank gets 3 and 3; any other PR gets a correctness between 2 and 10 and a completeness between 2 and that correctness. *)
Theorem basic_scores_no_issues : forall pd files,
  let a := performBasicAnalysis pd [] files in
  let desc := match pr_body pd with Some b => b | None => "" end in
  (String.eqb (trim desc) "" && String.eqb (trim (pr_title pd)) "" = true ->
     correctness_score a = JInt 3 /\ completeness_score a = JInt 3)
  /\ (String.eqb (trim desc) "" && String.eqb (trim (pr_title pd)) "" = false ->
     exists c p, correctness_score a = JInt c /\ completeness_score a = JInt p
                 /\ 2 <= c <= 10 /\ 2 <= p <= c).
Proof.
  intros pd files a desc.
  unfold a, performBasicAnalysis, basic_scores.
  replace (0 <? length (@nil issue)) with false by reflexivity.
  fold desc.
  destruct (String.eqb (trim desc) "" && String.eqb (trim (pr_title pd)) "") eqn:Hb.
  - split; [intros _; split; reflexivity | discriminate].
  - split; [discriminate|]. intros _.
    cbv beta iota zeta. cbn [correctness_score completeness_score].
    eexists; eexists; split; [reflexivity|]. split; [reflexivity|].
    unfold clamp, b2n. destruct (hasDocumentation files); lia.
Qed.

Lemma performBasicAnalysis_risk : forall pd issues files,
  risk_level (performBasicAnalysis pd issues files) = JStr (risk_of (length (riskFactors files))).
Proof.
  intros. unfold performBasicAnalysis.
  destruct (basic_scores pd issues files) as [[[? ?] ?] ?]. reflexivity.
Qed.

Lemma performBasicAnalysis_recs : forall pd issues files,
  recommendations (performBasicAnalysis pd issues files)
  = map JStr (basic_recommendations pd issues files).
Proof.
  intros. unfold performBasicAnalysis.
  destruct (basic_scores pd issues files) as [[[? ?] ?] ?]. reflexivity.
Qed.

(** X3: the heuristic recommendations: the high-risk line appears iff the risk level is HIGH, the tests line iff no test file is touched, the linking line iff there is no linked issue; every line is a non-blank string and there are at most 6. *)
Theorem basic_recommendations_spec : forall pd issues files,
  let a := performBasicAnalysis pd issues files in
  rec_has (recommendations a) "High risk changes detected - consider additional review"
    = strict_eq_str (risk_level a) "HIGH"
  /\ rec_has (recommendations a) "Consider adding or updating tests for the changes"
    = negb (hasTests files)
  /\ rec_has (recommendations a)
       "Consider linking related issues to provide more context for future reviews"
    = Nat.eqb (length issues) 0
  /\ Forall (fun v => exists s, v = JStr s /\ String.eqb (trim s) "" = false)
            (recommendations a)
  /\ length (recommendations a) <= 6.
Proof.
  intros pd issues files a. unfold a.
  rewrite performBasicAnalysis_risk, performBasicAnalysis_recs.
  unfold basic_recommendations, risk_of.
  destruct (hasTests files), (hasDocumentation files),
    (100 <? total_changes files), (300 <? total_changes files),
    (2 <? length (riskFactors files)), (0 <? length (riskFactors files)),
    (0 <? length issues) eqn:Hi,
    (match pr_body pd with Some b => _ | None => true end);
    (split; [reflexivity|]); (split; [reflexivity|]);
    (split; [try (destruct issues; [discriminate|reflexivity]);
             try (destruct issues; [reflexivity|discriminate])|]);
    (split; [repeat constructor; eexists; split; reflexivity | simpl; lia]).
Qed.

Lemma rec_line_exn : forall v, (exists m, rec_line v = Exn m) <-> trim_throws v.
Proof.
  intro v. unfold trim_throws. split.
  - intros [m Hm]. unfold rec_line in Hm.
    destruct v as [| |m0 e0|s|us|xs|kvs]; cbv beta iota in Hm;
      [| | |destruct (String.eqb _ _); discriminate
            |destruct (forallb _ _); discriminate| |];
      (destruct (truthy _) eqn:Ht; [|discriminate]);
      (split; [reflexivity| split; [intros s Hs|intros us Hs]; discriminate Hs]).
  - intros [Ht [Hs Hw]]. destruct v;
      try (exfalso; eapply Hs; reflexivity);
      try (exfalso; eapply Hw; reflexivity);
      unfold rec_line; cbv beta iota; rewrite Ht; eauto.
Qed.

Lemma rec_lines_exn : forall recs,
  (exists m, rec_lines recs = Exn m) <-> Exists trim_throws recs.
Proof.
  induction recs as [|v recs IH]; simpl.
  - split; [intros [m Hm]; discriminate | intro H; inversion H].
  - rewrite Exists_cons, <- rec_line_exn, <- IH.
    destruct (rec_line v) as [a|m]; simpl.
    + destruct (rec_lines recs) as [b|m]; simpl.
      * split; [intros [m Hm]; discriminate|].
        intros [[m Hm]|[m Hm]]; discriminate.
      * split; [intros _; right; eauto | intros _; eauto].
    + split; [intros _; left; eauto | intros _; eauto].
Qed.

Lemma generateComment_exn : forall show now r prn fa,
  success r = true -> result r = Some fa ->
  ((exists m, generateComment show now r prn = Exn m)
   <-> Exists trim_throws (recommendations (an fa))).
Proof.
  intros show now r prn fa Hs Hr. unfold generateComment. rewrite Hs, Hr.
  cbv beta iota zeta.
  destruct (recommendations (an fa)) as [|v recs] eqn:E.
  - split; [intros [m Hm]; discriminate | intro H; inversion H].
  - rewrite <- rec_lines_exn. destruct (rec_lines (v :: recs)) as [l|m]; simpl.
    + split; intros [m Hm]; discriminate.
    + split; eauto.
Qed.

Lemma starts_with_app : forall p s t, starts_with p s = true -> starts_with p (s ++ t) = true.
Proof.
  induction p as [|a p IH]; intros s t H; [reflexivity|].
  destruct s as [|b s]; [discriminate|]. simpl in *.
  apply andb_true_iff in H. destruct H as [H1 H2]. rewrite H1, (IH _ _ H2). reflexivity.
Qed.

Lemma includes_app_l : forall s t p, includes s p = true -> includes (s ++ t) p = true.
Proof.
  induction s as [|c s IH]; intros t p H.
  - destruct p; [destruct t; reflexivity|discriminate].
  - change (String c s ++ t) with (String c (s ++ t)). simpl in *.
    apply orb_true_iff in H. apply orb_true_iff. destruct H as [H|H].
    + left. exact (starts_with_app p (String c s) t H).
    + right. exact (IH t p H).
Qed.

Lemma generateComment_marker_ok : forall show now r prn c,
  success r = true -> generateComment show now r prn = Ok c ->
  includes c CommentHandler.marker = true.
Proof.
  intros show now r prn c Hs H. unfold generateComment in H. rewrite Hs in H.
  cbn [negb] in H. cbv beta iota zeta in H.
  destruct (result r) as [fa|]; [|discriminate].
  destruct (recommendations (an fa)) as [|v recs].
  - apply (f_equal (fun x => match x with Ok s => s | Exn _ => c end)) in H.
    cbv beta iota in H. subst c.
    apply includes_app_l, includes_app_l. vm_compute. reflexivity.
  - destruct (rec_lines (v :: recs)); [|discriminate]. cbn [bind] in H.
    apply (f_equal (fun x => match x with Ok s => s | Exn _ => c end)) in H.
    cbv beta iota in H. subst c.
    apply includes_app_l, includes_app_l. vm_compute. reflexivity.
Qed.

(** X8: every comment generated for a successful analysis contains the marker [findExistingComment] looks for. *)
Theorem generateComment_marker : forall show now r prn c,
  success r = true -> generateComment show now r prn = Ok c ->
  includes c CommentHandler.marker = true.
Proof. exact generateComment_marker_ok. Qed.

(** X4: with the real [generateComment], when the analysis succeeded and
    some recommendation is a truthy non-string value, on which
    [rec.trim()] throws, [main] exits with status 1 and prints no output. *)
Theorem main_exit_non_string_recommendation : forall show now prn e ce sc ue fa,
  success (fst (run_analyzePR e)) = true ->
  result (fst (run_analyzePR e)) = Some fa ->
  Exists trim_throws (recommendations (an fa)) ->
  main (fun r => generateComment show now r prn) show e ce sc ue = ([], 1).
Proof.
  intros show now prn e ce sc ue fa Hs Hr Hx. unfold main.
  destruct (run_analyzePR e) as [r log]. cbn [fst] in Hs, Hr.
  rewrite Hs, Hr. cbn [negb].
  destruct (proj2 (generateComment_exn show now r prn fa Hs Hr) Hx) as [m Hm].
  rewrite Hm. reflexivity.
Qed.

Lemma filter_model_ReqIssue : forall ns, filter is_model_request (map ReqIssue ns) = [].
Proof. induction ns as [|n ns IH]; [reflexivity|exact IH]. Qed.

Lemma fetch_issues_step : forall e pd log,
  (if 0 <? length (extractIssueNumbers pd) then fetchIssues (extractIssueNumbers pd)
   else (fun (_ : env) (log : list request) => (Ok [], log))) e log
  = (Ok (map to_issue (fetched_issues e (extractIssueNumbers pd))),
     (log ++ map ReqIssue (extractIssueNumbers pd))%list).
Proof.
  intros e pd log. destruct (extractIssueNumbers pd) as [|n ns'].
  - simpl. rewrite app_nil_r. reflexivity.
  - simpl. unfold fetchIssues. rewrite fetch_loop_spec. reflexivity.
Qed.

(** X6: a run sends at most one model request, and none when the API key is unset or empty. *)
Theorem analyzePR_model_calls : forall e,
  length (filter is_model_request (snd (run_analyzePR e)))
  <= (if key_set (anthropicApiKey e) then 1 else 0).
Proof.
  intro e. unfold run_analyzePR, analyzePR, fetchPRData, fetchPRFiles.
  unfold_monad. destruct (pr_fetch e) as [pd|st|m]; [|simpl; lia|simpl; lia].
  cbv beta iota zeta. rewrite fetch_issues_step.
  destruct (files_fetch e) as [files|st|m];
    [|simpl; rewrite !filter_app, filter_model_ReqIssue; simpl; lia
     |simpl; rewrite !filter_app, filter_model_ReqIssue; simpl; lia].
  destruct (negb _ && _).
  - simpl. rewrite !filter_app, filter_model_ReqIssue. simpl. lia.
  - destruct (key_set (anthropicApiKey e)).
    + destruct (Nat.eqb _ 0);
        unfold analyzeWithClaudeNoIssues, analyzeWithClaude, analyzeWith; unfold_monad;
        destruct (model_reply e _) as [text|];
        try destruct (parseClaudeResponse text);
        simpl; rewrite !filter_app, filter_model_ReqIssue; simpl; lia.
    + simpl. rewrite !filter_app, filter_model_ReqIssue. simpl. lia.
Qed.

(** X7: with a set API key but no model reply, the result of the run is the one of the run without a key. *)
Theorem key_without_reply_fallback : forall e k,
  key_set k = true -> (forall rq, model_reply e rq = None) ->
  fst (run_analyzePR (with_key e k)) = fst (run_analyzePR (with_key e None)).
Proof.
  intros [key prf isf ff mr] k Hk Hm. cbn [model_reply] in Hm. unfold with_key.
  unfold run_analyzePR, analyzePR, fetchPRData, fetchPRFiles.
  unfold_monad. cbn [pr_fetch files_fetch anthropicApiKey issue_fetch model_reply].
  destruct prf as [pd|st|m]; [|reflexivity|reflexivity].
  cbv beta iota zeta. rewrite !fetch_issues_step.
  destruct ff as [files|st|m]; [|reflexivity|reflexivity].
  cbv beta iota zeta.
  destruct (negb _ && _); [reflexivity|].
  cbn [anthropicApiKey]. rewrite Hk. cbn [key_set].
  unfold analyzeWithClaudeNoIssues, analyzeWithClaude, analyzeWith; unfold_monad.
  destruct (Nat.eqb (length (extractIssueNumbers pd)) 0) eqn:Hz;
    cbv beta iota zeta; cbn [model_reply]; rewrite !Hm; [|reflexivity].
  apply Nat.eqb_eq, length_zero_iff_nil in Hz. rewrite Hz. reflexivity.
Qed.

(** X9: a comment generated for a successful analysis and posted by a bot is found by the next [postOrUpdateComment] with [updateExisting] set, which patches it in place, when it lies on the first page of the listing (the first 30 comments of the PR) and every comment before it there has a user and is not a bot comment with the marker. *)
Theorem generated_comment_updated : forall show now r prn c ce cid pre post c' log,
  success r = true -> generateComment show now r prn = Ok c ->
  CommentHandler.list_resp ce = FOk tt ->
  firstn CommentHandler.per_page (CommentHandler.pr_comments ce)
  = (pre ++ {| CommentHandler.id := cid; CommentHandler.user_type := Some "Bot";
               CommentHandler.comment_body := c |} :: post)%list ->
  Forall (fun x => CommentHandler.is_bot_analysis x = Ok false) pre ->
  CommentHandler.postOrUpdateComment c' true ce log
  = (Ok (posted (CommentHandler.patch_resp ce cid c')),
     (log ++ [CommentHandler.ListComments; CommentHandler.PatchComment cid c'])%list).
Proof.
  intros show now r prn c ce cid pre post c' log Hs Hg Hl Hpg Hpre.
  unfold CommentHandler.postOrUpdateComment, CommentHandler.findExistingComment,
    CommentHandler.updateComment, posted.
  unfold_monad. rewrite Hl, Hpg, find_first_app; [|exact Hpre|].
  - cbn [CommentHandler.id]. rewrite <- app_assoc.
    destruct (CommentHandler.patch_resp _ _ _); reflexivity.
  - unfold CommentHandler.is_bot_analysis. cbn.
    rewrite (generateComment_marker_ok show now r prn c Hs Hg). reflexivity.
Qed.

Lemma escape_output_app : forall s t, escape_output (s ++ t) = escape_output s ++ escape_output t.
Proof.
  induction s as [|c s IH]; intro t; [reflexivity|]. simpl.
  rewrite IH. destruct (Ascii.eqb c _); [reflexivity|].
  destruct (Ascii.eqb c dq); reflexivity.
Qed.

(** X11: the escaped [comment] output never contains a line feed. *)
Theorem escape_output_no_newline : forall s,
  index_of (ascii_of_nat 10) (escape_output s) = None.
Proof.
  induction s as [|c s IH]; [reflexivity|]. cbn [escape_output].
  destruct (Ascii.eqb c (ascii_of_nat 10)) eqn:En; [simpl; rewrite IH; reflexivity|].
  destruct (Ascii.eqb c dq) eqn:Hq; [simpl; rewrite IH; reflexivity|].
  change (index_of (ascii_of_nat 10) (String c (escape_output s))) with
    (if Ascii.eqb (ascii_of_nat 10) c then Some 0
     else match index_of (ascii_of_nat 10) (escape_output s) with
          | Some i => Some (S i) | None => None end).
  rewrite IH, Ascii.eqb_sym. destruct (Ascii.eqb c (ascii_of_nat 10)) eqn:E; [|reflexivity].
  discriminate.
Qed.

(** X12: the escaping is lossy: a line feed and the two characters backslash and [n] give the same output. *)
Theorem escape_output_newline_backslash_n : forall s t,
  escape_output (s ++ nl ++ t) = escape_output (s ++ "\n" ++ t).
Proof.
  intros s t. rewrite !escape_output_app. reflexivity.
Qed.

Lemma prefix_upto_prefix_upto : forall n m s, n <= m ->
  prefix_upto n (prefix_upto m s) = prefix_upto n s.
Proof.
  unfold prefix_upto. intros n m s. revert n m.
  induction s as [|c s IH]; intros [|n] [|m] H; try reflexivity; try lia.
  simpl. rewrite IH by lia. reflexivity.
Qed.

Lemma prefix_upto_length : forall n s, String.length (prefix_upto n s) <= n.
Proof.
  unfold prefix_upto. intros n s. revert n.
  induction s as [|c s IH]; intros [|n]; simpl; try lia. specialize (IH n). lia.
Qed.

Lemma prefix_upto_empty : forall n s, 0 < n ->
  String.eqb (prefix_upto n s) "" = String.eqb s "".
Proof. intros [|n] [|c s] H; try lia; reflexivity. Qed.

Lemma patch_text_truncate : forall f,
  patch_text (patch (truncate_patch f)) = patch_text (patch f).
Proof.
  intro f. unfold truncate_patch. cbn [patch]. destruct (patch f) as [p|]; [|reflexivity].
  unfold patch_text. rewrite prefix_upto_empty by lia.
  destruct (String.eqb p ""); [reflexivity|].
  rewrite prefix_upto_prefix_upto by lia. reflexivity.
Qed.

Lemma file_block_truncate : forall ind f,
  file_block ind (truncate_patch f) = file_block ind f.
Proof. intros ind f. unfold file_block. rewrite patch_text_truncate. reflexivity. Qed.

Lemma changesText_truncate : forall ind files,
  changesText ind (map truncate_patch files) = changesText ind files.
Proof.
  intros ind files. unfold changesText. rewrite firstn_map, map_map.
  f_equal. apply map_ext. apply file_block_truncate.
Qed.

Lemma changesText_firstn : forall ind files,
  changesText ind (firstn 15 files) = changesText ind files.
Proof. intros. unfold changesText. rewrite firstn_firstn. reflexivity. Qed.

(** X13: both prompts ignore every file after the 15th, and cutting the patches to 3000 characters at fetch time never changes a prompt. *)
Theorem prompts_fetched_files : forall pd issues files,
  buildAnalysisPrompt pd issues (map truncate_patch files) = buildAnalysisPrompt pd issues files
  /\ buildAnalysisPrompt pd issues (firstn 15 files) = buildAnalysisPrompt pd issues files
  /\ buildNoIssuesAnalysisPrompt pd (map truncate_patch files) = buildNoIssuesAnalysisPrompt pd files
  /\ buildNoIssuesAnalysisPrompt pd (firstn 15 files) = buildNoIssuesAnalysisPrompt pd files.
Proof.
  intros pd issues files. unfold buildAnalysisPrompt, buildNoIssuesAnalysisPrompt.
  rewrite !changesText_truncate, !changesText_firstn. repeat split.
Qed.

(** X14: the prompt with linked issues depends only on the first 2000 characters of the PR description. *)
Theorem analysis_prompt_description_cut : forall pd b issues files,
  buildAnalysisPrompt (with_body pd (Some (prefix_upto 2000 b))) issues files
  = buildAnalysisPrompt (with_body pd (Some b)) issues files.
Proof.
  intros pd b issues files. unfold buildAnalysisPrompt, description_text.
  cbn [with_body pr_body pr_title pr_user pr_additions pr_deletions pr_changed_files].
  rewrite prefix_upto_empty by lia. destruct (String.eqb b ""); [reflexivity|].
  rewrite prefix_upto_prefix_upto by lia. reflexivity.
Qed.

Lemma string_app_assoc : forall a b c : string, a ++ (b ++ c) = (a ++ b) ++ c.
Proof. induction a as [|x a IH]; intros b c; [reflexivity|]. simpl. rewrite IH. reflexivity. Qed.

Lemma nat_to_string_aux_acc : forall f n acc, n < f ->
  nat_to_string_aux f n acc = nat_to_string_aux f n "" ++ acc.
Proof.
  induction f as [|f IH]; intros n acc H; [lia|].
  cbn [nat_to_string_aux]. destruct (n <? 10) eqn:E; [reflexivity|].
  apply Nat.ltb_ge in E.
  assert (n / 10 < f) by (apply Nat.lt_le_trans with n; [apply Nat.div_lt; lia|lia]).
  rewrite (IH (n / 10) (String _ acc)) by lia.
  rewrite (IH (n / 10) (String _ "")) by lia.
  rewrite <- string_app_assoc. reflexivity.
Qed.

Lemma digit_char : forall k, k < 10 ->
  code (ascii_of_nat (48 + k)) = 48 + k.
Proof. intros k H. unfold code. apply nat_ascii_embedding. lia. Qed.

Lemma list_ascii_app : forall s t,
  list_ascii_of_string (s ++ t) = (list_ascii_of_string s ++ list_ascii_of_string t)%list.
Proof. induction s as [|c s IH]; intro t; simpl; [reflexivity|]. rewrite IH. reflexivity. Qed.

Lemma nat_to_string_aux_spec : forall f n, n < f ->
  digits_value (nat_to_string_aux f n "") = n
  /\ Forall (fun c => is_digit c = true) (list_ascii_of_string (nat_to_string_aux f n ""))
  /\ nat_to_string_aux f n "" <> "".
Proof.
  induction f as [|f IH]; intros n H; [lia|].
  cbn [nat_to_string_aux].
  assert (Hm : n mod 10 < 10) by (apply Nat.mod_upper_bound; lia).
  assert (Hd : is_digit (ascii_of_nat (48 + n mod 10)) = true).
  { unfold is_digit. rewrite digit_char by lia. apply andb_true_iff.
    split; apply Nat.leb_le; lia. }
  destruct (n <? 10) eqn:E.
  - apply Nat.ltb_lt in E. split; [|split; [constructor; [exact Hd|constructor]|discriminate]].
    unfold digits_value. cbn [list_ascii_of_string fold_left].
    rewrite digit_char by lia. rewrite Nat.mod_small by lia. lia.
  - apply Nat.ltb_ge in E.
    assert (n / 10 < f) by (apply Nat.lt_le_trans with n; [apply Nat.div_lt; lia|lia]).
    rewrite nat_to_string_aux_acc by lia.
    destruct (IH (n / 10) H0) as [Hv [Hf Hne]].
    split; [|split].
    + unfold digits_value in *. rewrite list_ascii_app, fold_left_app, Hv.
      cbn [list_ascii_of_string fold_left]. rewrite digit_char by lia.
      pose proof (Nat.div_mod n 10). lia.
    + rewrite list_ascii_app. apply Forall_app. split; [exact Hf|].
      constructor; [exact Hd|constructor].
    + destruct (nat_to_string_aux f (n / 10) ""); [contradiction|discriminate].
Qed.

Lemma nat_to_string_spec : forall n,
  digits_value (nat_to_string n) = n
  /\ Forall (fun c => is_digit c = true) (list_ascii_of_string (nat_to_string n))
  /\ nat_to_string n <> "".
Proof. intro n. apply nat_to_string_aux_spec. lia. Qed.

Lemma take_while_digits : forall s rest,
  Forall (fun c => is_digit c = true) (list_ascii_of_string s) ->
  match rest with String c _ => is_digit c = false | EmptyString => True end ->
  take_while is_digit (s ++ rest) = (s, rest).
Proof.
  induction s as [|c s IH]; intros rest Hs Hr.
  - destruct rest as [|c r]; [reflexivity|]. simpl. rewrite Hr. reflexivity.
  - inversion Hs as [|x l Hc Hs']. subst. simpl. rewrite Hc, IH by assumption. reflexivity.
Qed.

Lemma digit_not_sep : forall c, is_digit c = true -> colon_or_ws c = false.
Proof.
  intros c H. unfold colon_or_ws.
  destruct (Ascii.eqb c ":") eqn:E.
  - apply Ascii.eqb_eq in E. subst c. vm_compute in H. discriminate H.
  - cbn [orb]. unfold is_digit, is_ws, code in *. apply andb_true_iff in H.
    destruct H as [H1 H2]. apply Nat.leb_le in H1, H2.
    destruct (9 <=? nat_of_ascii c) eqn:A; destruct (nat_of_ascii c <=? 13) eqn:B;
    destruct (nat_of_ascii c =? 32) eqn:C; destruct (nat_of_ascii c =? 160) eqn:D;
    try reflexivity;
    repeat match goal with
           | h : (_ <=? _) = true |- _ => apply Nat.leb_le in h
           | h : (_ =? _) = true |- _ => apply Nat.eqb_eq in h
           end; lia.
Qed.

Lemma starts_with_ci_app : forall p t, starts_with_ci p (p ++ t) = true.
Proof.
  induction p as [|a p IH]; intro t; [reflexivity|].
  simpl. rewrite Ascii.eqb_refl, IH. reflexivity.
Qed.

Lemma drop_n_app : forall p t, drop_n (String.length p) (p ++ t) = t.
Proof. induction p as [|a p IH]; intro t; [reflexivity|]. exact (IH t). Qed.

Lemma extractScore_prefix : forall label n rest,
  match rest with String c _ => is_digit c = false | EmptyString => True end ->
  extractScore (label ++ ": " ++ nat_to_string n ++ rest) label = JInt n.
Proof.
  intros label n rest Hr. unfold extractScore.
  destruct (nat_to_string_spec n) as [Hv [Hf Hne]].
  destruct (label ++ ": " ++ nat_to_string n ++ rest) as [|c0 s0] eqn:Et.
  - destruct label; discriminate.
  - cbn [search_first]. rewrite <- Et, starts_with_ci_app, drop_n_app.
    cbn [append drop_while]. replace (colon_or_ws ":") with true by reflexivity.
    replace (colon_or_ws " ") with true by reflexivity.
    destruct (nat_to_string n) as [|d ds] eqn:En; [contradiction|].
    cbn [list_ascii_of_string] in Hf.
    pose proof (Forall_inv Hf) as Hd. pose proof (Forall_inv_tail Hf) as Hf'. cbv beta in Hd.
    change (String d ds ++ rest) with (String d (ds ++ rest)).
    cbn [drop_while]. rewrite (digit_not_sep d Hd).
    change (String d (ds ++ rest)) with (String d ds ++ rest).
    unfold digits1. rewrite take_while_digits by (try constructor; assumption).
    rewrite Hv. reflexivity.
Qed.

Lemma index_of_app_none : forall c s t,
  index_of c s = None -> index_of c t = None -> index_of c (s ++ t) = None.
Proof.
  induction s as [|d s IH]; intros t Hs Ht; [exact Ht|].
  cbn [append index_of] in *. destruct (Ascii.eqb c d); [discriminate|].
  rewrite IH; [reflexivity| |exact Ht]. destruct (index_of c s); [discriminate|reflexivity].
Qed.

Lemma index_of_digits : forall s,
  Forall (fun c => is_digit c = true) (list_ascii_of_string s) -> index_of "{" s = None.
Proof.
  induction s as [|d s IH]; intro H; [reflexivity|].
  cbn [list_ascii_of_string] in H. pose proof (Forall_inv H) as Hd.
  pose proof (Forall_inv_tail H) as Ht. cbv beta in Hd.
  cbn [index_of]. rewrite IH by exact Ht.
  destruct (Ascii.eqb "{" d) eqn:E; [|reflexivity].
  apply Ascii.eqb_eq in E. subst d. vm_compute in Hd. discriminate Hd.
Qed.

(** X17: a model reply with no JSON payload that starts with [CORRECTNESS_SCORE: n] (n not followed by a digit, and at most 2^53, so that [parseInt] gives it exactly) is parsed by the text fallback with correctness score [n]. *)
Theorem fallback_correctness_score : forall n rest,
  (Z.of_nat n <= 2 ^ 53)%Z ->
  index_of "{" rest = None ->
  match rest with String c _ => is_digit c = false | EmptyString => True end ->
  exists a, parseClaudeResponse ("CORRECTNESS_SCORE: " ++ nat_to_string n ++ rest) = Ok a
            /\ correctness_score a = JInt n
            /\ analysis_type a = "AI-Powered (Parsed)".
Proof.
  intros n rest _ Hb Hr.
  assert (Hj : json_match ("CORRECTNESS_SCORE: " ++ nat_to_string n ++ rest) = None).
  { unfold json_match. rewrite index_of_app_none; [reflexivity|reflexivity|].
    apply index_of_app_none; [|exact Hb].
    apply index_of_digits. apply nat_to_string_spec. }
  unfold parseClaudeResponse. rewrite Hj. eexists. split; [reflexivity|].
  split; [|reflexivity]. cbn [from_text correctness_score].
  exact (extractScore_prefix "CORRECTNESS_SCORE" n rest Hr).
Qed.

(* ================================================================= *)
(** ** Witnesses of the further properties *)

(** X4 on a keyed run whose model reply recommends [[1]]. *)
Lemma main_exit_non_string_recommendation_witness :
  main (fun r => generateComment show_plain "now" r "7") show_plain
    env_numeric_recs comments_ok true true = ([], 1).
Proof.
  apply (main_exit_non_string_recommendation show_plain "now" "7" env_numeric_recs
           comments_ok true true fa_numeric).
  - vm_compute. reflexivity.
  - vm_compute. reflexivity.
  - vm_compute. left.
    split; [reflexivity | split; [intros s' Hs'; discriminate Hs' | intros u Hu; discriminate Hu]].
Defined.

(** X7 with the key [sk-test] on a run without model replies. *)
Lemma key_without_reply_fallback_witness :
  key_set (Some "sk-test") = true
  /\ fst (run_analyzePR (with_key env_issue_missing (Some "sk-test")))
     = fst (run_analyzePR (with_key env_issue_missing None)).
Proof.
  split; [reflexivity|].
  apply key_without_reply_fallback; [reflexivity | intro rq; reflexivity].
Defined.

(** X8 on the comment of the run [env_one_line]. *)
Lemma generateComment_marker_witness :
  success (fst (run_analyzePR env_one_line)) = true
  /\ includes comment_one_line CommentHandler.marker = true.
Proof.
  split; [vm_compute; reflexivity|].
  apply (generateComment_marker show_plain "now" (fst (run_analyzePR env_one_line)) "7");
    vm_compute; reflexivity.
Defined.

(** X9: that comment, listed after a user's comment, is patched. *)
Lemma generated_comment_updated_witness :
  CommentHandler.postOrUpdateComment "updated" true ce_own_comment []
  = (Ok true, [CommentHandler.ListComments; CommentHandler.PatchComment 12 "updated"]).
Proof.
  apply (generated_comment_updated show_plain "now" (fst (run_analyzePR env_one_line)) "7"
           comment_one_line ce_own_comment 12 [user_comment] [] "updated" []).
  - vm_compute. reflexivity.
  - vm_compute. reflexivity.
  - reflexivity.
  - reflexivity.
  - constructor; [reflexivity | constructor].
Defined.

(** X17 on the reply [CORRECTNESS_SCORE: 7] followed by a second line. *)
Lemma fallback_correctness_score_witness :
  exists a, parseClaudeResponse ("CORRECTNESS_SCORE: " ++ nat_to_string 7 ++ nl ++ "RISK_LEVEL:HIGH") = Ok a
            /\ correctness_score a = JInt 7
            /\ analysis_type a = "AI-Powered (Parsed)".
Proof.
  apply fallback_correctness_score; [lia | vm_compute; reflexivity | vm_compute; reflexivity].
Defined.
